(** * Cloudflare KV MCP server: a shallow embedding of [src/cloudflare/index.ts]

    The server registers two request handlers on an MCP [Server]: one that
    lists four tool descriptors and one that dispatches a tool call to one of
    four adapters ([handleGet], [handlePut], [handleDelete], [handleList]),
    each of which issues a single [fetch] against the Cloudflare KV REST API
    and wraps the outcome in a result envelope.

    TypeScript types are erased at run time and the dispatcher passes the
    caller's arguments on with an unchecked [as] assertion, so the adapters
    are embedded over untyped JavaScript values.  The network is an oracle;
    every [fetch] is recorded, so that what is sent can be stated. *)

From Stdlib Require Import String Ascii ZArith List Bool Lia DecimalString.
Import ListNotations.
Local Open Scope list_scope.
Local Open Scope string_scope.
Set Warnings "-register-all".

(** ** JavaScript values and completions *)

Module JS.

(** The values that reach this program: what [JSON.parse] produces (tool
    arguments, the provider's list body) plus [undefined] for an absent
    argument or property.  A number is the integer-valued double it denotes
    (a count, a TTL in seconds, an error code), of magnitude below 10^21,
    and is kept as [Z]; fractional and non-finite numbers, and the integers
    from 10^21 on, are outside the embedding.  The
    properties of an object are its own enumerable string-keyed properties
    in enumeration order, each key once. *)
Inductive JSValue : Type :=
| JUndefined
| JNull
| JBool (b : bool)
| JNumber (n : Z)
| JString (s : string)
| JArray (items : list JSValue)
| JObject (props : list (string * JSValue)).

(** What a [throw] carries: an [Error] instance (only its [name] and
    [message] matter here) or any other value. *)
Inductive Thrown : Type :=
| JSError (name message : string)
| ThrownValue (v : JSValue).

(** A completion: the evaluation returned a value or threw. *)
Inductive Completion (A : Type) : Type :=
| Normal (a : A)
| Throw (e : Thrown).
Arguments Normal {A} a.
Arguments Throw {A} e.

Definition bindC {A B} (c : Completion A) (k : A -> Completion B) : Completion B :=
  match c with
  | Normal a => k a
  | Throw e => Throw e
  end.

(** The engine's own failures are [TypeError]s; the wording of the messages
    is V8's and no result below depends on it. *)
Definition TypeError (message : string) : Thrown := JSError "TypeError" message.

(** [error instanceof Error] *)
Definition instanceofError (e : Thrown) : bool :=
  match e with
  | JSError _ _ => true
  | ThrownValue _ => false
  end.

(** Own-property lookup. *)
Fixpoint get_own (props : list (string * JSValue)) (P : string) : option JSValue :=
  match props with
  | [] => None
  | (k, v) :: rest => if String.eqb k P then Some v else get_own rest P
  end.

Definition has_own (props : list (string * JSValue)) (P : string) : bool :=
  match get_own props P with
  | Some _ => true
  | None => false
  end.

(** [ToBoolean]: what [if (x)], [x ? a : b] and [!x] test. *)
Definition ToBoolean (v : JSValue) : bool :=
  match v with
  | JUndefined | JNull => false
  | JBool b => b
  | JNumber n => negb (n =? 0)%Z
  | JString s => negb (String.eqb s EmptyString)
  | JArray _ | JObject _ => true
  end.

(** [Number::toString] on an integer-valued number of magnitude below
    10^21: its decimal digits.  From 10^21 on JavaScript writes a number in
    exponent notation ([1e+21]), which this definition does not do: those
    numbers are outside the embedding. *)
Definition Number_toString (n : Z) : string :=
  NilZero.string_of_int (Z.to_int n).

(** [ToString], as applied by a template literal, by [Array.prototype.join]
    to the elements and by [URLSearchParams.append] to its arguments.
    An array is joined with commas ([undefined] and [null] elements
    give the empty string).  An ordinary object yields
    [[object Object]] through [Object.prototype.toString], unless it has an
    own property [toString]: a parsed value is never callable, so
    [OrdinaryToPrimitive] skips it, finds no primitive through [valueOf]
    either and throws. *)
Fixpoint ToString (v : JSValue) : Completion string :=
  match v with
  | JUndefined => Normal "undefined"
  | JNull => Normal "null"
  | JBool true => Normal "true"
  | JBool false => Normal "false"
  | JNumber n => Normal (Number_toString n)
  | JString s => Normal s
  | JArray items =>
      let fix elements (l : list JSValue) : Completion (list string) :=
        match l with
        | [] => Normal []
        | x :: rest =>
            bindC (match x with
                   | JUndefined | JNull => Normal EmptyString
                   | _ => ToString x
                   end)
              (fun s => bindC (elements rest) (fun ss => Normal (s :: ss)))
        end in
      bindC (elements items) (fun ss => Normal (String.concat "," ss))
  | JObject props =>
      if has_own props "toString"
      then Throw (TypeError "Cannot convert object to primitive value")
      else Normal "[object Object]"
  end.

(** One element of [Array.prototype.join]. *)
Definition join_element (x : JSValue) : Completion string :=
  match x with
  | JUndefined | JNull => Normal EmptyString
  | _ => ToString x
  end.

Fixpoint join_elements (l : list JSValue) : Completion (list string) :=
  match l with
  | [] => Normal []
  | x :: rest =>
      bindC (join_element x)
        (fun s => bindC (join_elements rest) (fun ss => Normal (s :: ss)))
  end.

(** [items.join(sep)] on an array. *)
Definition Array_join (items : list JSValue) (sep : string) : Completion string :=
  bindC (join_elements items) (fun ss => Normal (String.concat sep ss)).

(** [v.P] for the property names this program reads ([key], [value],
    [expirationTtl], [prefix], [limit], [success], [errors], [result],
    [name]): none of them is defined by a built-in prototype or is an own
    property of an array or a string, so only an object's own properties
    can supply them.  Reading a property of [undefined] or [null] throws. *)
Definition Get (v : JSValue) (P : string) : Completion JSValue :=
  match v with
  | JUndefined =>
      Throw (TypeError ("Cannot read properties of undefined (reading '" ++ P ++ "')"))
  | JNull =>
      Throw (TypeError ("Cannot read properties of null (reading '" ++ P ++ "')"))
  | JObject props =>
      Normal (match get_own props P with Some x => x | None => JUndefined end)
  | _ => Normal JUndefined
  end.

(** [v.toString()]: the method every primitive and array inherits agrees
    with [ToString]; an object whose own [toString] property shadows the
    inherited method has nothing callable there. *)
Definition call_toString (ref : string) (v : JSValue) : Completion string :=
  match v with
  | JUndefined =>
      Throw (TypeError "Cannot read properties of undefined (reading 'toString')")
  | JNull =>
      Throw (TypeError "Cannot read properties of null (reading 'toString')")
  | JObject props =>
      if has_own props "toString"
      then Throw (TypeError (ref ++ ".toString is not a function"))
      else Normal "[object Object]"
  | _ => ToString v
  end.

(** [v.join(sep)]: only an array has the method. *)
Definition call_join (ref : string) (v : JSValue) (sep : string) : Completion string :=
  match v with
  | JUndefined =>
      Throw (TypeError "Cannot read properties of undefined (reading 'join')")
  | JNull =>
      Throw (TypeError "Cannot read properties of null (reading 'join')")
  | JArray items => Array_join items sep
  | _ => Throw (TypeError (ref ++ ".join is not a function"))
  end.

(** [v.map(f)]: only an array has the method; [f] may throw, which ends
    the traversal. *)
Fixpoint Array_map (f : JSValue -> Completion JSValue) (items : list JSValue)
  : Completion (list JSValue) :=
  match items with
  | [] => Normal []
  | x :: rest =>
      bindC (f x) (fun y => bindC (Array_map f rest) (fun ys => Normal (y :: ys)))
  end.

Definition call_map (ref : string) (v : JSValue) (f : JSValue -> Completion JSValue)
  : Completion JSValue :=
  match v with
  | JUndefined =>
      Throw (TypeError "Cannot read properties of undefined (reading 'map')")
  | JNull =>
      Throw (TypeError "Cannot read properties of null (reading 'map')")
  | JArray items => bindC (Array_map f items) (fun ys => Normal (JArray ys))
  | _ => Throw (TypeError (ref ++ ".map is not a function"))
  end.

End JS.

(** ** [JSON.stringify] *)

Module JSON.
Import JS.

Definition dquote : string := String "034"%char EmptyString.
Definition newline : string := String "010"%char EmptyString.

Definition hex_lower (n : N) : ascii :=
  match String.get (N.to_nat n) "0123456789abcdef" with
  | Some c => c
  | None => "0"%char
  end.

(** One code unit of [QuoteJSONString]: the two-character escapes, a
    [\u00xx] escape for the other control characters, and everything else
    as it is.  Strings are held as their UTF-8 bytes, so a character beyond
    ASCII is a run of bytes above 127, which pass through unchanged. *)
Definition escape_char (c : ascii) : string :=
  let n := N_of_ascii c in
  if (n =? 8)%N then "\b"
  else if (n =? 9)%N then "\t"
  else if (n =? 10)%N then "\n"
  else if (n =? 12)%N then "\f"
  else if (n =? 13)%N then "\r"
  else if (n =? 34)%N then "\" ++ dquote
  else if (n =? 92)%N then "\\"
  else if (n <? 32)%N then
    "\u00" ++ String (hex_lower (n / 16)) (String (hex_lower (n mod 16)) EmptyString)
  else String c EmptyString.

Fixpoint escape (s : string) : string :=
  match s with
  | EmptyString => EmptyString
  | String c rest => escape_char c ++ escape rest
  end.

Definition QuoteJSONString (s : string) : string := dquote ++ escape s ++ dquote.

(** The closing step of [SerializeJSONArray] and [SerializeJSONObject]:
    [partial] holds the serialized elements or members. *)
Definition wrap (opening closing gap stepback : string) (partial : list string) : string :=
  match partial with
  | [] => opening ++ closing
  | _ =>
      if String.eqb gap EmptyString
      then opening ++ String.concat "," partial ++ closing
      else
        let indent := stepback ++ gap in
        opening ++ newline ++ indent
          ++ String.concat ("," ++ newline ++ indent) partial
          ++ newline ++ stepback ++ closing
  end.

(** [SerializeJSONProperty] with no replacer; [None] is [undefined].  No
    value here has a callable [toJSON].  In an array [undefined] is written
    [null]; in an object the member is left out. *)
Fixpoint SerializeJSONProperty (gap indent : string) (v : JSValue) : option string :=
  match v with
  | JUndefined => None
  | JNull => Some "null"
  | JBool true => Some "true"
  | JBool false => Some "false"
  | JNumber n => Some (Number_toString n)
  | JString s => Some (QuoteJSONString s)
  | JArray items =>
      let fix elements (l : list JSValue) : list string :=
        match l with
        | [] => []
        | x :: rest =>
            match SerializeJSONProperty gap (indent ++ gap) x with
            | Some s => s
            | None => "null"
            end :: elements rest
        end in
      Some (wrap "[" "]" gap indent (elements items))
  | JObject props =>
      let fix members (l : list (string * JSValue)) : list string :=
        match l with
        | [] => []
        | (k, x) :: rest =>
            match SerializeJSONProperty gap (indent ++ gap) x with
            | Some s =>
                (QuoteJSONString k ++ ":"
                   ++ (if String.eqb gap EmptyString then EmptyString else " ") ++ s)
                  :: members rest
            | None => members rest
            end
        end in
      Some (wrap "{" "}" gap indent (members props))
  end.

Fixpoint spaces (n : nat) : string :=
  match n with
  | O => EmptyString
  | S m => " " ++ spaces m
  end.

(** [JSON.stringify(value, null, space)] for a numeric [space]: the gap is
    that many spaces, ten at most. *)
Definition stringify (value : JSValue) (space : nat) : option string :=
  SerializeJSONProperty (spaces (Nat.min 10 space)) EmptyString value.

End JSON.

(** ** [URLSearchParams] *)

Module URLSearchParams.

(** The list of name-value pairs of a [URLSearchParams] object. *)
Definition t : Type := list (string * string).

Definition empty : t := [].

(** [params.append(name, value)], on strings already converted. *)
Definition append (params : t) (name value : string) : t :=
  (params ++ [(name, value)])%list.

Definition hex_upper (n : N) : ascii :=
  match String.get (N.to_nat n) "0123456789ABCDEF" with
  | Some c => c
  | None => "0"%char
  end.

(** The application/x-www-form-urlencoded byte serializer: letters, digits
    and [*-._] stay, a space becomes [+], any other byte is percent-encoded. *)
Definition unreserved (c : ascii) : bool :=
  let n := N_of_ascii c in
  ((48 <=? n) && (n <=? 57) || (65 <=? n) && (n <=? 90) || (97 <=? n) && (n <=? 122)
   || (n =? 42) || (n =? 45) || (n =? 46) || (n =? 95))%N.

Definition encode_byte (c : ascii) : string :=
  let n := N_of_ascii c in
  if (n =? 32)%N then "+"
  else if unreserved c then String c EmptyString
  else "%" ++ String (hex_upper (n / 16)) (String (hex_upper (n mod 16)) EmptyString).

Fixpoint encode (s : string) : string :=
  match s with
  | EmptyString => EmptyString
  | String c rest => encode_byte c ++ encode rest
  end.

(** [params.toString()], which a template literal applies to [params]. *)
Definition toString (params : t) : string :=
  String.concat "&" (map (fun p => encode (fst p) ++ "=" ++ encode (snd p)) params).

End URLSearchParams.

(** ** [fetch] and the effects of an adapter *)

Module Fetch.
Import JS.

(** The second argument of [fetch] as this program writes it.  [query] is
    not an option of [fetch]: the field is there because [handlePut] puts
    it there. *)
Record RequestInit : Type := {
  method : option string;
  headers : list (string * string);
  body : option JSValue;
  query : option JSValue
}.

Record FetchCall : Type := {
  call_url : string;
  call_init : RequestInit
}.

(** What [fetch] takes from its arguments: the URL string as it is handed
    over, the method (GET when the option is missing), the headers and the
    body (none when the option is missing, [undefined] or [null]).  It
    reads no other option.  The URL is kept as the string the program
    built: parsing it (dot segments are resolved, a fragment is dropped,
    characters are percent-encoded) is done by [fetch] and belongs to the
    [Network] below, as does following a redirect. *)
Record Request : Type := {
  url : string;
  request_method : string;
  request_headers : list (string * string);
  request_body : option JSValue
}.

Definition Request_of (c : FetchCall) : Request :=
  {| url := call_url c;
     request_method := match method (call_init c) with Some m => m | None => "GET" end;
     request_headers := headers (call_init c);
     request_body := match body (call_init c) with
                     | Some JUndefined | Some JNull | None => None
                     | Some b => Some b
                     end |}.

(** A response: its status line and what reading the body as text or as
    JSON gives (each may reject). *)
Record Response : Type := {
  status : Z;
  statusText : string;
  text : Completion string;
  json : Completion JSValue
}.

(** [response.ok]: the status is in the range 200-299. *)
Definition ok (r : Response) : bool := ((200 <=? status r) && (status r <? 300))%Z.

(** The network: the response the [fetch] promise resolves to for what it
    was asked (after [fetch] has parsed the URL and followed any redirect),
    or the rejection of the promise. *)
Definition Network : Type := Request -> Completion Response.

(** A computation that may call [fetch] and may throw: the calls made, in
    order, and the completion. *)
Definition Eff (A : Type) : Type := (list FetchCall * Completion A)%type.

Definition ret {A} (a : A) : Eff A := ([], Normal a).

Definition throw {A} (e : Thrown) : Eff A := ([], Throw e).

Definition lift {A} (c : Completion A) : Eff A := ([], c).

Definition bind {A B} (m : Eff A) (k : A -> Eff B) : Eff B :=
  match m with
  | (calls, Normal a) => let (calls', r) := k a in ((calls ++ calls')%list, r)
  | (calls, Throw e) => (calls, Throw e)
  end.

(** [try { body } catch (error) { handler }] *)
Definition try_catch {A} (body : Eff A) (handler : Thrown -> Eff A) : Eff A :=
  match body with
  | (calls, Throw e) => let (calls', r) := handler e in ((calls ++ calls')%list, r)
  | _ => body
  end.

(** [await fetch(url, init)] *)
Definition fetch (network : Network) (url : string) (init : RequestInit) : Eff Response :=
  let c := {| call_url := url; call_init := init |} in
  ([c], network (Request_of c)).

Definition calls {A} (m : Eff A) : list FetchCall := fst m.
Definition completion {A} (m : Eff A) : Completion A := snd m.

End Fetch.

Declare Scope eff_scope.
Delimit Scope eff_scope with eff.
Notation "x <- m ;; k" := (Fetch.bind m (fun x => k))
  (at level 61, m at next level, right associativity) : eff_scope.

(** ** Tool definitions *)

Module Property.
Record t : Type := { type : string; description : string }.
End Property.

Module Schema.
(** [required] is [None] where the schema has no such member. *)
Record t : Type := {
  type : string;
  properties : list (string * Property.t);
  required : option (list string)
}.
End Schema.

Module Tool.
Record t : Type := { name : string; description : string; inputSchema : Schema.t }.
End Tool.

Definition KV_GET_TOOL : Tool.t :=
  {| Tool.name := "kv_get";
     Tool.description := "Get a value from Cloudflare KV store";
     Tool.inputSchema :=
       {| Schema.type := "object";
          Schema.properties :=
            [("key", {| Property.type := "string";
                        Property.description := "The key to retrieve" |})];
          Schema.required := Some ["key"] |} |}.

Definition KV_PUT_TOOL : Tool.t :=
  {| Tool.name := "kv_put";
     Tool.description := "Put a value into Cloudflare KV store";
     Tool.inputSchema :=
       {| Schema.type := "object";
          Schema.properties :=
            [("key", {| Property.type := "string";
                        Property.description := "The key to store" |});
             ("value", {| Property.type := "string";
                          Property.description := "The value to store" |});
             ("expirationTtl", {| Property.type := "number";
                                  Property.description := "Optional expiration time in seconds" |})];
          Schema.required := Some ["key"; "value"] |} |}.

Definition KV_DELETE_TOOL : Tool.t :=
  {| Tool.name := "kv_delete";
     Tool.description := "Delete a key from Cloudflare KV store";
     Tool.inputSchema :=
       {| Schema.type := "object";
          Schema.properties :=
            [("key", {| Property.type := "string";
                        Property.description := "The key to delete" |})];
          Schema.required := Some ["key"] |} |}.

Definition KV_LIST_TOOL : Tool.t :=
  {| Tool.name := "kv_list";
     Tool.description := "List keys in Cloudflare KV store";
     Tool.inputSchema :=
       {| Schema.type := "object";
          Schema.properties :=
            [("prefix", {| Property.type := "string";
                           Property.description := "Optional prefix to filter keys" |});
             ("limit", {| Property.type := "number";
                          Property.description := "Maximum number of keys to return" |})];
          Schema.required := None |} |}.

Definition KV_TOOLS : list Tool.t :=
  [KV_GET_TOOL; KV_PUT_TOOL; KV_DELETE_TOOL; KV_LIST_TOOL].

(** ** Configuration *)

Record Config : Type := {
  accountId : option string;
  apiToken : option string;
  namespaceId : option string
}.

(** [process.env] gives a string or [undefined]; nothing is checked. *)
Definition getConfig (env : string -> option string) : Config :=
  {| accountId := env "CLOUDFLARE_ACCOUNT_ID";
     apiToken := env "CLOUDFLARE_API_TOKEN";
     namespaceId := env "CLOUDFLARE_KV_NAMESPACE_ID" |}.

(** A configuration field inside a template literal. *)
Definition interpolate (field : option string) : string :=
  match field with
  | Some s => s
  | None => "undefined"
  end.

(** ** Result envelopes *)

Module Content.
Record t : Type := { type : string; text : string }.
End Content.

Record ToolResult : Type := { content : list Content.t; isError : bool }.

Record Envelope : Type := { toolResult : ToolResult }.

(** The one shape every [return] of the adapters and of the dispatcher
    has: a single text item and the error flag. *)
Definition envelope (text : string) (isError : bool) : Envelope :=
  {| toolResult :=
       {| content := [{| Content.type := "text"; Content.text := text |}];
          isError := isError |} |}.

(** The text of an envelope's first content item. *)
Definition envelope_text (e : Envelope) : string :=
  match content (toolResult e) with
  | c :: _ => Content.text c
  | [] => EmptyString
  end.

Module CallToolRequest.
(** [request.params]: the SDK's schema has checked that [name] is a
    string and [arguments] an object or absent ([JUndefined]). *)
Record params : Type := { name : string; arguments : JS.JSValue }.
End CallToolRequest.

Record ListToolsResult : Type := { tools : list Tool.t }.

(** ** The server *)

Section Server.
Import JS Fetch.
Local Open Scope eff_scope.

(** The process environment and the network the server runs against. *)
Variable env : string -> option string.
Variable network : Network.

Definition config : Config := getConfig env.

(** The common head of the four URL templates. *)
Definition namespace_url : string :=
  "https://api.cloudflare.com/client/v4/accounts/" ++ interpolate (accountId config)
    ++ "/storage/kv/namespaces/" ++ interpolate (namespaceId config).

Definition values_url (key : string) : string := namespace_url ++ "/values/" ++ key.

Definition keys_url (params : URLSearchParams.t) : string :=
  namespace_url ++ "/keys?" ++ URLSearchParams.toString params.

Definition authorization : string * string :=
  ("Authorization", "Bearer " ++ interpolate (apiToken config)).

(** *** API handlers *)

Definition handleGet (key : JSValue) : Eff Envelope :=
  k <- lift (ToString key) ;;
  response <- fetch network (values_url k)
    {| method := None; headers := [authorization]; body := None; query := None |} ;;
  if negb (ok response) then
    ret (envelope ("Failed to get value: " ++ statusText response) true)
  else
    value <- lift (text response) ;;
    ret (envelope value false).

Definition handlePut (key value expirationTtl : JSValue) : Eff Envelope :=
  k <- lift (ToString key) ;;
  response <- fetch network (values_url k)
    {| method := Some "PUT";
       headers := [authorization; ("Content-Type", "text/plain")];
       body := Some value;
       query := if ToBoolean expirationTtl
                then Some (JObject [("expiration_ttl", expirationTtl)])
                else None |} ;;
  if negb (ok response) then
    ret (envelope ("Failed to put value: " ++ statusText response) true)
  else
    k' <- lift (ToString key) ;;
    ret (envelope ("Successfully stored value for key: " ++ k') false).

Definition handleDelete (key : JSValue) : Eff Envelope :=
  k <- lift (ToString key) ;;
  response <- fetch network (values_url k)
    {| method := Some "DELETE"; headers := [authorization]; body := None; query := None |} ;;
  if negb (ok response) then
    ret (envelope ("Failed to delete key: " ++ statusText response) true)
  else
    k' <- lift (ToString key) ;;
    ret (envelope ("Successfully deleted key: " ++ k') false).

(** The two conditional [params.append] statements of [handleList]. *)
Definition list_params (prefix limit : JSValue) : Completion URLSearchParams.t :=
  bindC (if ToBoolean prefix
         then bindC (ToString prefix)
                (fun p => Normal (URLSearchParams.append URLSearchParams.empty "prefix" p))
         else Normal URLSearchParams.empty)
    (fun params =>
       if ToBoolean limit
       then bindC (call_toString "limit" limit)
              (fun l => Normal (URLSearchParams.append params "limit" l))
       else Normal params).

Definition handleList (prefix limit : JSValue) : Eff Envelope :=
  params <- lift (list_params prefix limit) ;;
  response <- fetch network (keys_url params)
    {| method := None; headers := [authorization]; body := None; query := None |} ;;
  if negb (ok response) then
    ret (envelope ("Failed to list keys: " ++ statusText response) true)
  else
    data <- lift (json response) ;;
    success <- lift (Get data "success") ;;
    if negb (ToBoolean success) then
      errors <- lift (Get data "errors") ;;
      joined <- lift (call_join "data.errors" errors ", ") ;;
      ret (envelope ("Failed to list keys: " ++ joined) true)
    else
      result <- lift (Get data "result") ;;
      keys <- lift (call_map "data.result" result (fun item => Get item "name")) ;;
      ret (envelope
             (match JSON.stringify keys 2 with Some s => s | None => "undefined" end)
             false).

(** *** Request handlers *)

Definition ListToolsRequestHandler : ListToolsResult := {| tools := KV_TOOLS |}.

(** [const { P, ... } = source]: the pattern first requires [source] to be
    neither [undefined] nor [null], then reads each property. *)
Definition destructure (source : JSValue) (P : string) : Completion JSValue :=
  match source with
  | JUndefined =>
      Throw (TypeError ("Cannot destructure property '" ++ P
                          ++ "' of 'request.params.arguments' as it is undefined."))
  | JNull =>
      Throw (TypeError ("Cannot destructure property '" ++ P
                          ++ "' of 'request.params.arguments' as it is null."))
  | _ => Get source P
  end.

(** The [switch] inside the [try] block. *)
Definition dispatch (request : CallToolRequest.params) : Eff Envelope :=
  let name := CallToolRequest.name request in
  let arguments := CallToolRequest.arguments request in
  if String.eqb name "kv_get" then
    key <- lift (destructure arguments "key") ;;
    handleGet key
  else if String.eqb name "kv_put" then
    key <- lift (destructure arguments "key") ;;
    value <- lift (destructure arguments "value") ;;
    expirationTtl <- lift (destructure arguments "expirationTtl") ;;
    handlePut key value expirationTtl
  else if String.eqb name "kv_delete" then
    key <- lift (destructure arguments "key") ;;
    handleDelete key
  else if String.eqb name "kv_list" then
    prefix <- lift (destructure arguments "prefix") ;;
    limit <- lift (destructure arguments "limit") ;;
    handleList prefix limit
  else
    ret (envelope ("Unknown tool: " ++ name) true).

(** [error instanceof Error ? error.message : String(error)] *)
Definition error_text (error : Thrown) : Completion string :=
  match error with
  | JSError _ message => Normal message
  | ThrownValue v => ToString v
  end.

(** The handler registered for [CallToolRequestSchema]: every adapter is
    awaited inside the [try], so a rejection reaches the [catch]. *)
Definition CallToolRequestHandler (request : CallToolRequest.params) : Eff Envelope :=
  try_catch (dispatch request)
    (fun error =>
       message <- lift (error_text error) ;;
       ret (envelope ("Error: " ++ message) true)).

End Server.

(** ** Vocabulary of the statements *)

Import JS Fetch.

(** The computation called [fetch] once and the network answered that call
    with the response [r]. *)
Definition answered {A} (network : Network) (m : Eff A) (r : Response) : Prop :=
  exists c, calls m = [c] /\ network (Request_of c) = Normal r.

(** What [fetch] was asked for, one entry per call: the URL string, method,
    headers and body it takes from the call's arguments.  These are not the
    HTTP requests on the wire: [fetch] parses the URL string first and may
    send further requests when it follows a redirect. *)
Definition requests {A} (m : Eff A) : list Request := map Request_of (calls m).

(** A thrown value the [catch] clause can put into words: an [Error], or a
    value whose conversion to a string returns. *)
Definition printable (e : Thrown) : Prop :=
  match e with
  | JSError _ _ => True
  | ThrownValue v => exists s, ToString v = Normal s
  end.

Definition throws_printable {A} (c : Completion A) : Prop :=
  forall e, c = Throw e -> printable e.

(** Whatever the network rejects with (the [fetch] promise, or reading the
    body of a response) is printable.  The rejections of an HTTP client are
    [Error] instances, which are. *)
Definition rejects_printable (network : Network) : Prop :=
  forall request,
    throws_printable (network request) /\
    forall r, network request = Normal r ->
              throws_printable (text r) /\ throws_printable (json r).

(** [JSON.stringify(names, null, 2)] written out for an array of strings. *)
Definition pretty_printed_names (names : list string) : string :=
  match names with
  | [] => "[]"
  | _ =>
      "[" ++ JSON.newline ++ "  "
        ++ String.concat ("," ++ JSON.newline ++ "  ") (map JSON.QuoteJSONString names)
        ++ JSON.newline ++ "]"
  end.

(** The entries of a list body carry these names: each is an object (or any
    value that is neither [undefined] nor [null]) whose [name] is the given
    string, whatever else it holds. *)
Definition entries_named (entries : list JSValue) (names : list string) : Prop :=
  Forall2 (fun entry name => Get entry "name" = Normal (JString name)) entries names.

(** A parameter name occurs in a list of name-value pairs. *)
Definition has_param (name : string) (params : URLSearchParams.t) : Prop :=
  In name (map fst params).

(** *** Fixtures for the closed instances *)

Definition sample_env (variable : string) : option string :=
  if String.eqb variable "CLOUDFLARE_ACCOUNT_ID" then Some "acct"
  else if String.eqb variable "CLOUDFLARE_API_TOKEN" then Some "token"
  else if String.eqb variable "CLOUDFLARE_KV_NAMESPACE_ID" then Some "ns"
  else None.

Definition sample_response (status : Z) (statusText : string) (body : Completion JSValue)
  : Response :=
  {| status := status; statusText := statusText;
     text := Normal "stored-value"; json := body |}.

Definition not_json : Completion JSValue :=
  Throw (JSError "SyntaxError" "Unexpected end of JSON input").

Definition not_found : Response := sample_response 404 "Not Found" not_json.

Definition no_content : Response := sample_response 200 "OK" not_json.

Definition listing : Response :=
  sample_response 200 "OK"
    (Normal (JObject
       [("result",
          JArray [JObject [("name", JString "a"); ("expiration", JNumber 1700000000)];
                  JObject [("name", JString "b");
                           ("metadata", JObject [("owner", JString "x")])]]);
        ("success", JBool true);
        ("errors", JArray []);
        ("messages", JArray [])])).

Definition refusal : Response :=
  sample_response 200 "OK"
    (Normal (JObject
       [("result", JNull);
        ("success", JBool false);
        ("errors", JArray [JString "bad namespace"; JString "try again"]);
        ("messages", JArray [])])).

Definition always (r : Response) : Network := fun _ => Normal r.

Definition unreachable : Network :=
  fun _ => Throw (JSError "FetchError" "request to api.cloudflare.com failed").

Definition call (name : string) (arguments : JSValue) : CallToolRequest.params :=
  {| CallToolRequest.name := name; CallToolRequest.arguments := arguments |}.

(** *** Vocabulary of the further properties *)


(** A call hands [fetch] the bearer token of the configuration among its
    headers and a URL string that starts with the configured namespace URL.
    What follows that start is not encoded, so this is a fact about the
    string handed over, not about where the parsed URL points. *)
Definition authorized (env : string -> option string) (c : FetchCall) : Prop :=
  In (authorization env) (headers (call_init c))
  /\ String.prefix (namespace_url env) (call_url c) = true.

(** The characters a serialized query is made of: the unreserved ones, the
    two the encoding introduces and the two separators. *)
Definition query_char (c : ascii) : bool :=
  URLSearchParams.unreserved c
  || Ascii.eqb c "+" || Ascii.eqb c "%" || Ascii.eqb c "=" || Ascii.eqb c "&".

(** The characters an encoded name or value is made of. *)
Definition encoded_char (c : ascii) : bool :=
  URLSearchParams.unreserved c || Ascii.eqb c "+" || Ascii.eqb c "%".

(** How often a character occurs in a string. *)
Definition occurrences (c : ascii) (s : string) : nat :=
  count_occ ascii_dec (list_ascii_of_string s) c.

(** A character that is not a control character. *)
Definition printing_char (c : ascii) : bool := (32 <=? N_of_ascii c)%N.

(** An entry's [name] as [item.name] reads it: a string, or [undefined]
    when the entry has none. *)
Definition read_name (name : option string) : JSValue :=
  match name with
  | Some n => JString n
  | None => JUndefined
  end.

(** How such a name is written in the listing. *)
Definition written_name (name : option string) : string :=
  match name with
  | Some n => JSON.QuoteJSONString n
  | None => "null"
  end.

(** A pretty-printed array of already serialized items. *)
Definition pretty_printed (items : list string) : string :=
  match items with
  | [] => "[]"
  | _ =>
      "[" ++ JSON.newline ++ "  "
        ++ String.concat ("," ++ JSON.newline ++ "  ") items
        ++ JSON.newline ++ "]"
  end.

Definition is_array (v : JSValue) : bool :=
  match v with
  | JArray _ => true
  | _ => false
  end.

(** [CloudflareListResponse] bodies for the closed instances: one whose
    second entry has no name, one without [result]. *)
Definition sparse_listing : Response :=
  sample_response 200 "OK"
    (Normal (JObject
       [("result", JArray [JObject [("name", JString "a")];
                           JObject [("expiration", JNumber 1700000000)]]);
        ("success", JBool true)])).

Definition truncated_listing : Response :=
  sample_response 200 "OK" (Normal (JObject [("success", JBool true)])).

Definition no_env (variable : string) : option string := None.

(** A network whose [fetch] rejects with a value that is not an [Error]. *)
Definition hanging_up : Network :=
  fun _ => Throw (ThrownValue (JArray [JString "ECONNRESET"; JString "socket hang up"])).

(** ** Laws of the effect layer *)

Lemma bind_lift {A B} (c : Completion A) (k : A -> Eff B) :
  bind (lift c) k = match c with
                    | Normal a => k a
                    | Throw e => ([], Throw e)
                    end.
Proof.
  unfold bind, lift. destruct c as [a|e]; [|reflexivity].
  now destruct (k a).
Qed.

Lemma bind_ret {A B} (a : A) (k : A -> Eff B) : bind (ret a) k = k a.
Proof. unfold bind, ret. now destruct (k a). Qed.

Lemma bind_fetch {B} (network : Network) (u : string) (i : RequestInit)
      (k : Response -> Eff B) :
  bind (fetch network u i) k =
  let c := {| call_url := u; call_init := i |} in
  match network (Request_of c) with
  | Normal r => (c :: calls (k r), completion (k r))
  | Throw e => ([c], Throw e)
  end.
Proof.
  unfold bind, fetch; cbn.
  destruct (network _) as [r|e]; [|reflexivity].
  now destruct (k r).
Qed.


Lemma ok_true_iff (r : Response) :
  ok r = true <-> (200 <= status r <= 299)%Z.
Proof. unfold ok. rewrite andb_true_iff, Z.leb_le, Z.ltb_lt. lia. Qed.

(** ** Runs of the embedding *)

Example ToString_nested_array :
  ToString (JArray [JNumber 1; JNull; JArray [JString "x"; JBool true]; JNumber (-7)])
  = Normal "1,,x,true,-7".
Proof. reflexivity. Qed.

Example ToString_shadowed_method :
  ToString (JArray [JObject [("toString", JNumber 1)]])
  = Throw (TypeError "Cannot convert object to primitive value").
Proof. reflexivity. Qed.

Example toString_reserved_characters :
  URLSearchParams.toString [("prefix", "a b&c/d"); ("limit", "10")]
  = "prefix=a+b%26c%2Fd&limit=10".
Proof. reflexivity. Qed.

Example stringify_nested :
  JSON.stringify (JArray [JString "a\b"; JObject [("n", JArray []); ("m", JUndefined)]]) 2
  = Some ("[" ++ JSON.newline
            ++ "  " ++ JSON.dquote ++ "a\\b" ++ JSON.dquote ++ "," ++ JSON.newline
            ++ "  {" ++ JSON.newline
            ++ "    " ++ JSON.dquote ++ "n" ++ JSON.dquote ++ ": []" ++ JSON.newline
            ++ "  }" ++ JSON.newline
            ++ "]").
Proof. reflexivity. Qed.

Example kv_get_returns_value :
  CallToolRequestHandler sample_env (always no_content)
    (call "kv_get" (JObject [("key", JString "k")]))
  = ([{| call_url := "https://api.cloudflare.com/client/v4/accounts/acct/storage/kv/namespaces/ns/values/k";
         call_init := {| method := None; headers := [("Authorization", "Bearer token")];
                         body := None; query := None |} |}],
     Normal (envelope "stored-value" false)).
Proof. reflexivity. Qed.

Example kv_get_without_arguments :
  CallToolRequestHandler sample_env (always no_content) (call "kv_get" JUndefined)
  = ([], Normal (envelope
                   "Error: Cannot destructure property 'key' of 'request.params.arguments' as it is undefined."
                   true)).
Proof. reflexivity. Qed.

Example kv_list_unparsable_body :
  completion (CallToolRequestHandler sample_env (always no_content) (call "kv_list" (JObject [])))
  = Normal (envelope "Error: Unexpected end of JSON input" true).
Proof. reflexivity. Qed.

Example unset_environment :
  namespace_url (fun _ => None)
  = "https://api.cloudflare.com/client/v4/accounts/undefined/storage/kv/namespaces/undefined".
Proof. reflexivity. Qed.

(** ** HTTP failures *)

(** When a computation that starts with a [fetch] made exactly one call and
    that call was answered by [r], its continuation ran on [r]. *)
Lemma answered_fetch {B} (network : Network) (u : string) (i : RequestInit)
      (k : Response -> Eff B) (r : Response) :
  answered network (bind (fetch network u i) k) r ->
  completion (bind (fetch network u i) k) = completion (k r).
Proof.
  intros [c [Hcalls Hanswer]]. rewrite bind_fetch in *. cbn zeta in *.
  destruct (network _) as [r0|e] eqn:E; cbn in Hcalls.
  - injection Hcalls as Hc _. subst c. rewrite E in Hanswer.
    injection Hanswer as ->. reflexivity.
  - injection Hcalls as Hc. subst c. rewrite E in Hanswer. discriminate.
Qed.

Lemma answered_lift {A B} (network : Network) (c : Completion A) (k : A -> Eff B)
      (r : Response) :
  answered network (bind (lift c) k) r ->
  exists a, c = Normal a /\ answered network (k a) r
            /\ completion (bind (lift c) k) = completion (k a).
Proof.
  rewrite bind_lift. destruct c as [a|e].
  - intros H. exists a. auto.
  - intros [c [Hcalls _]]. discriminate.
Qed.

Ltac after_answer H :=
  apply answered_lift in H; destruct H as (? & _ & H & ->);
  rewrite (answered_fetch _ _ _ _ _ H).



(** ** Successful writes *)

Lemma ok_negb_true (r : Response) :
  (200 <= status r <= 299)%Z -> negb (ok r) = false.
Proof. intros H. apply ok_true_iff in H. now rewrite H. Qed.

(** C7. A [kv_put] or [kv_delete] whose key reads as the string [k] and
    whose HTTP call is answered with a 2xx status returns the envelope with
    [isError] false and the text [Successfully stored value for key: k],
    respectively [Successfully deleted key: k].  A string key is its own
    reading. *)
Theorem write_success_text (env : string -> option string) (network : Network)
        (key : JSValue) (k : string) (r : Response) :
  ToString key = Normal k ->
  (200 <= status r <= 299)%Z ->
  (forall value expirationTtl,
      answered network (handlePut env network key value expirationTtl) r ->
      completion (handlePut env network key value expirationTtl)
      = Normal (envelope ("Successfully stored value for key: " ++ k) false))
  /\ (answered network (handleDelete env network key) r ->
      completion (handleDelete env network key)
      = Normal (envelope ("Successfully deleted key: " ++ k) false)).
Proof.
  intros Hkey Hstatus. apply ok_negb_true in Hstatus.
  split; intros.
  - unfold handlePut in *. after_answer H.
    rewrite Hstatus, Hkey, bind_lift. reflexivity.
  - unfold handleDelete in *. after_answer H.
    rewrite Hstatus, Hkey, bind_lift. reflexivity.
Qed.

Lemma write_success_text_witness :
  completion (handlePut sample_env (always no_content) (JString "k") (JString "v") JUndefined)
  = Normal (envelope "Successfully stored value for key: k" false)
  /\ completion (handleDelete sample_env (always no_content) (JString "k"))
     = Normal (envelope "Successfully deleted key: k" false).
Proof.
  assert (Hstatus : (200 <= status no_content <= 299)%Z) by (vm_compute; split; discriminate).
  destruct (write_success_text sample_env (always no_content) (JString "k") "k" no_content
              eq_refl Hstatus) as [Hput Hdelete].
  split.
  - apply Hput. eexists; split; reflexivity.
  - apply Hdelete. eexists; split; reflexivity.
Defined.

(** ** The expiration of a write *)

(** C3. The requests [handlePut] sends do not depend on [expirationTtl]:
    the value goes into a [query] member of the options, which the request
    built by [fetch] does not read, and the URL has no query string.  At
    key [k], value [v] and a TTL of 60 the one request is a PUT of [v] to
    the bare value URL. *)
Theorem put_expiration_not_sent :
  (forall env network key value expirationTtl,
      requests (handlePut env network key value expirationTtl)
      = requests (handlePut env network key value JUndefined)
      /\ completion (handlePut env network key value expirationTtl)
         = completion (handlePut env network key value JUndefined))
  /\ calls (handlePut sample_env (always no_content) (JString "k") (JString "v") (JNumber 60))
     = [{| call_url := "https://api.cloudflare.com/client/v4/accounts/acct/storage/kv/namespaces/ns/values/k";
           call_init :=
             {| method := Some "PUT";
                headers := [("Authorization", "Bearer token"); ("Content-Type", "text/plain")];
                body := Some (JString "v");
                query := Some (JObject [("expiration_ttl", JNumber 60)]) |} |}]
  /\ requests (handlePut sample_env (always no_content) (JString "k") (JString "v") (JNumber 60))
     = [{| url := "https://api.cloudflare.com/client/v4/accounts/acct/storage/kv/namespaces/ns/values/k";
           request_method := "PUT";
           request_headers := [("Authorization", "Bearer token"); ("Content-Type", "text/plain")];
           request_body := Some (JString "v") |}].
Proof.
  split; [|split; reflexivity].
  intros env network key value expirationTtl.
  unfold requests, handlePut. rewrite !bind_lift.
  destruct (ToString key) as [k|e]; [|split; reflexivity].
  rewrite !bind_fetch. cbn zeta. unfold Request_of. cbn [call_url call_init method headers body].
  destruct (network _) as [r|e]; split; reflexivity.
Qed.

(** ** Unknown tools and the registry *)

(** C8. A call whose name is none of the registered tool names returns,
    without calling the network and without throwing, the error envelope
    with the text [Unknown tool: ] followed by that name. *)
Theorem unknown_tool_enveloped (env : string -> option string) (network : Network)
        (name : string) (arguments : JSValue) :
  ~ In name (map Tool.name KV_TOOLS) ->
  CallToolRequestHandler env network (call name arguments)
  = ([], Normal (envelope ("Unknown tool: " ++ name) true)).
Proof.
  intros Hname. cbn in Hname.
  unfold CallToolRequestHandler, dispatch, call; cbn.
  destruct (String.eqb_spec name "kv_get"); [subst; tauto|].
  destruct (String.eqb_spec name "kv_put"); [subst; tauto|].
  destruct (String.eqb_spec name "kv_delete"); [subst; tauto|].
  destruct (String.eqb_spec name "kv_list"); [subst; tauto|].
  reflexivity.
Qed.

Lemma unknown_tool_enveloped_witness :
  CallToolRequestHandler sample_env unreachable (call "kv_purge" JUndefined)
  = ([], Normal (envelope "Unknown tool: kv_purge" true)).
Proof.
  apply (unknown_tool_enveloped sample_env unreachable "kv_purge" JUndefined).
  cbn. intros [H|[H|[H|[H|[]]]]]; discriminate H.
Defined.

(** C9. The discovery handler answers with the four descriptors [kv_get],
    [kv_put], [kv_delete], [kv_list], in this order, whose [required] lists
    are [key]; [key], [value]; [key]; and none. *)
Theorem tools_listed :
  map Tool.name (tools ListToolsRequestHandler) = ["kv_get"; "kv_put"; "kv_delete"; "kv_list"]
  /\ map (fun tool => Schema.required (Tool.inputSchema tool)) (tools ListToolsRequestHandler)
     = [Some ["key"]; Some ["key"; "value"]; Some ["key"]; None].
Proof. split; reflexivity. Qed.

(** ** The query string of a listing *)

Ltac run_lifts :=
  repeat (rewrite bind_lift;
          match goal with
          | |- context [match ?c with Normal _ => _ | Throw _ => _ end] => destruct c
          end);
  try reflexivity.

(** [handleList] makes one call, to the keys URL with the serialized
    parameters, whatever the answer is. *)
Lemma handleList_calls (env : string -> option string) (network : Network)
      (prefix limit : JSValue) (params : URLSearchParams.t) :
  list_params prefix limit = Normal params ->
  calls (handleList env network prefix limit)
  = [{| call_url := keys_url env params;
        call_init := {| method := None; headers := [authorization env];
                        body := None; query := None |} |}].
Proof.
  intros H. unfold handleList. rewrite H, bind_lift, bind_fetch. cbn zeta.
  destruct (network _) as [r|e]; [|reflexivity].
  cbn [calls fst]. f_equal.
  destruct (negb (ok r)); [reflexivity|].
  run_lifts; destruct (negb (ToBoolean _)); reflexivity.
Qed.

(** What the two conditional appends leave in [params]. *)
Lemma list_params_inv (prefix limit : JSValue) (params : URLSearchParams.t) :
  list_params prefix limit = Normal params ->
  exists front back,
    params = (front ++ back)%list
    /\ (front = [] \/ ToBoolean prefix = true /\ exists p, front = [("prefix", p)])
    /\ (back = [] \/ ToBoolean limit = true /\ exists l, back = [("limit", l)]).
Proof.
  unfold list_params, URLSearchParams.append, URLSearchParams.empty.
  destruct (ToBoolean prefix).
  - destruct (ToString prefix) as [p|e]; cbn; [|discriminate].
    destruct (ToBoolean limit).
    + destruct (call_toString "limit" limit) as [l|e]; cbn; [|discriminate].
      intros [= <-]. exists [("prefix", p)], [("limit", l)].
      repeat split; right; split; try reflexivity; eexists; reflexivity.
    + intros [= <-]. exists [("prefix", p)], [].
      repeat split; [right; split; try reflexivity; eexists; reflexivity | now left].
  - cbn. destruct (ToBoolean limit).
    + destruct (call_toString "limit" limit) as [l|e]; cbn; [|discriminate].
      intros [= <-]. exists [], [("limit", l)].
      repeat split; [now left | right; split; try reflexivity; eexists; reflexivity].
    + intros [= <-]. exists [], []. repeat split; now left.
Qed.

(** The [catch] clause calls nothing: the handler's calls are the
    dispatch's. *)
Lemma handler_calls (env : string -> option string) (network : Network)
      (request : CallToolRequest.params) :
  calls (CallToolRequestHandler env network request) = calls (dispatch env network request).
Proof.
  unfold CallToolRequestHandler, try_catch.
  destruct (dispatch env network request) as [made [r|e]]; [reflexivity|].
  rewrite bind_lift. destruct (error_text e); cbn; apply app_nil_r.
Qed.

(** C6. [handleList] puts [prefix] and [limit] into the query string of
    the URL it fetches only when the argument is present, and leaves an
    absent ([undefined]) argument out altogether; with neither argument
    (also when the tool is called with an empty arguments object) the query
    string after [keys?] is empty. *)
Theorem list_query_parameters (env : string -> option string) (network : Network)
        (prefix limit : JSValue) (params : URLSearchParams.t) :
  list_params prefix limit = Normal params ->
  calls (handleList env network prefix limit)
  = [{| call_url := namespace_url env ++ "/keys?" ++ URLSearchParams.toString params;
        call_init := {| method := None; headers := [authorization env];
                        body := None; query := None |} |}]
  /\ (has_param "prefix" params -> prefix <> JUndefined)
  /\ (has_param "limit" params -> limit <> JUndefined)
  /\ (prefix = JUndefined -> ~ has_param "prefix" params)
  /\ (limit = JUndefined -> ~ has_param "limit" params)
  /\ (prefix = JUndefined -> limit = JUndefined ->
      URLSearchParams.toString params = EmptyString)
  /\ map call_url (calls (handleList env network JUndefined JUndefined))
     = [namespace_url env ++ "/keys?"]
  /\ map call_url (calls (CallToolRequestHandler env network (call "kv_list" (JObject []))))
     = [namespace_url env ++ "/keys?"].
Proof.
  intros H.
  assert (Hprefix : prefix = JUndefined -> ~ has_param "prefix" params).
  { intros -> Hin. apply list_params_inv in H.
    destruct H as (front & back & -> & [->|[Ht _]] & [->|[_ [l ->]]]);
      try discriminate Ht; cbn in Hin; intuition discriminate. }
  assert (Hlimit : limit = JUndefined -> ~ has_param "limit" params).
  { intros -> Hin. apply list_params_inv in H.
    destruct H as (front & back & -> & [->|[_ [p ->]]] & [->|[Ht _]]);
      try discriminate Ht; cbn in Hin; intuition discriminate. }
  split; [exact (handleList_calls env network prefix limit params H)|].
  split; [intros Hin Heq; exact (Hprefix Heq Hin)|].
  split; [intros Hin Heq; exact (Hlimit Heq Hin)|].
  split; [exact Hprefix|]. split; [exact Hlimit|]. split.
  - intros -> ->. cbn in H. injection H as <-. reflexivity.
  - split.
    + now rewrite (handleList_calls env network JUndefined JUndefined [] eq_refl).
    + rewrite handler_calls. unfold dispatch, call. cbn [CallToolRequest.name
        CallToolRequest.arguments String.eqb Ascii.eqb Bool.eqb destructure Get get_own].
      rewrite !bind_lift.
      now rewrite (handleList_calls env network JUndefined JUndefined [] eq_refl).
Qed.

Lemma list_query_parameters_witness :
  calls (handleList sample_env (always listing) (JString "a") (JNumber 10))
  = [{| call_url := namespace_url sample_env ++ "/keys?" ++ "prefix=a&limit=10";
        call_init := {| method := None; headers := [authorization sample_env];
                        body := None; query := None |} |}]
  /\ map call_url (calls (handleList sample_env (always listing) JUndefined JUndefined))
     = ["https://api.cloudflare.com/client/v4/accounts/acct/storage/kv/namespaces/ns/keys?"].
Proof.
  pose proof (list_query_parameters sample_env (always listing) (JString "a") (JNumber 10)
                [("prefix", "a"); ("limit", "10")] eq_refl) as H.
  split; [exact (proj1 H)|].
  exact (proj1 (proj2 (proj2 (proj2 (proj2 (proj2 (proj2 H))))))).
Defined.

(** ** Falsy list parameters *)

Lemma list_params_truthiness (prefix limit : JSValue) :
  list_params prefix limit
  = list_params (if ToBoolean prefix then prefix else JUndefined)
      (if ToBoolean limit then limit else JUndefined).
Proof.
  unfold list_params.
  destruct (ToBoolean prefix) eqn:Hp, (ToBoolean limit) eqn:Hl;
    cbn [ToBoolean]; rewrite ?Hp, ?Hl; reflexivity.
Qed.

(** C10. [handleList] tests its parameters for truthiness: a falsy
    [prefix] or [limit] is treated exactly as an absent one.  A [limit] of 0
    and an empty [prefix] are left out of the query string, which is then
    empty. *)
Theorem falsy_list_parameter_omitted (env : string -> option string) (network : Network)
        (prefix limit : JSValue) :
  handleList env network prefix limit
  = handleList env network (if ToBoolean prefix then prefix else JUndefined)
      (if ToBoolean limit then limit else JUndefined)
  /\ handleList env network prefix (JNumber 0) = handleList env network prefix JUndefined
  /\ handleList env network (JString EmptyString) limit
     = handleList env network JUndefined limit
  /\ list_params (JString EmptyString) (JNumber 0) = Normal URLSearchParams.empty
  /\ map call_url (calls (handleList env network (JString EmptyString) (JNumber 0)))
     = [namespace_url env ++ "/keys?"].
Proof.
  assert (H : forall p l, handleList env network p l
                          = handleList env network (if ToBoolean p then p else JUndefined)
                              (if ToBoolean l then l else JUndefined)).
  { intros p l. unfold handleList. now rewrite <- list_params_truthiness. }
  split; [apply H|]. split; [|split; [|split; [reflexivity|]]].
  - rewrite (H prefix (JNumber 0)), (H prefix JUndefined). reflexivity.
  - rewrite (H (JString EmptyString) limit), (H JUndefined limit). reflexivity.
  - now rewrite (handleList_calls env network (JString EmptyString) (JNumber 0) [] eq_refl).
Qed.

(** ** The body of a listing *)

Lemma join_elements_strings (messages : list string) :
  join_elements (map JString messages) = Normal messages.
Proof.
  induction messages as [|m rest IH]; [reflexivity|].
  cbn. now rewrite IH.
Qed.

Lemma Array_join_strings (messages : list string) (sep : string) :
  Array_join (map JString messages) sep = Normal (String.concat sep messages).
Proof. unfold Array_join. now rewrite join_elements_strings. Qed.

(** C4. When the listing's HTTP call is answered with a 2xx status and a
    JSON body whose [success] is falsy, [handleList] returns the error
    envelope, [isError] true, whose text is [Failed to list keys: ]
    followed by the entries of the body's [errors] array joined with a
    comma and a space; for error messages that are strings, those very
    messages. *)
Theorem list_provider_failure (env : string -> option string) (network : Network)
        (prefix limit : JSValue) (r : Response) (data success : JSValue)
        (errors : list JSValue) (joined : string) :
  answered network (handleList env network prefix limit) r ->
  (200 <= status r <= 299)%Z ->
  json r = Normal data ->
  Get data "success" = Normal success ->
  ToBoolean success = false ->
  Get data "errors" = Normal (JArray errors) ->
  Array_join errors ", " = Normal joined ->
  completion (handleList env network prefix limit)
  = Normal (envelope ("Failed to list keys: " ++ joined) true)
  /\ forall messages, errors = map JString messages -> joined = String.concat ", " messages.
Proof.
  intros Hanswer Hstatus Hjson Hsuccess Hfalsy Herrors Hjoined. split.
  - apply ok_negb_true in Hstatus.
    unfold handleList in *. after_answer Hanswer.
    rewrite Hstatus, Hjson, bind_lift, Hsuccess, bind_lift, Hfalsy. cbn [negb].
    rewrite Herrors, bind_lift. cbn [call_join].
    rewrite Hjoined, bind_lift. reflexivity.
  - intros messages ->. rewrite Array_join_strings in Hjoined. now injection Hjoined.
Qed.

Lemma list_provider_failure_witness :
  completion (handleList sample_env (always refusal) JUndefined JUndefined)
  = Normal (envelope "Failed to list keys: bad namespace, try again" true).
Proof.
  refine (proj1 (list_provider_failure sample_env (always refusal) JUndefined JUndefined
                   refusal _ (JBool false)
                   [JString "bad namespace"; JString "try again"]
                   "bad namespace, try again" _ _ eq_refl eq_refl eq_refl eq_refl eq_refl)).
  - eexists; split; reflexivity.
  - vm_compute; split; discriminate.
Defined.

Lemma map_entry_names (entries : list JSValue) (names : list string) :
  entries_named entries names ->
  Array_map (fun item => Get item "name") entries = Normal (map JString names).
Proof.
  induction 1 as [|entry name entries names Hname _ IH]; [reflexivity|].
  cbn [Array_map map]. rewrite Hname, IH. reflexivity.
Qed.

Lemma serialize_strings (gap indent : string) (names : list string) :
  JSON.SerializeJSONProperty gap indent (JArray (map JString names))
  = Some (JSON.wrap "[" "]" gap indent (map JSON.QuoteJSONString names)).
Proof.
  cbn [JSON.SerializeJSONProperty]. do 2 f_equal.
  induction names as [|n rest IH]; [reflexivity|].
  cbn [map]. rewrite <- IH. reflexivity.
Qed.

Lemma stringify_names (names : list string) :
  JSON.stringify (JArray (map JString names)) 2 = Some (pretty_printed_names names).
Proof.
  unfold JSON.stringify. rewrite serialize_strings.
  destruct names; reflexivity.
Qed.

(** C5. When the listing's HTTP call is answered with a 2xx status and a
    JSON body whose [success] is truthy, [handleList] returns the envelope
    with [isError] false whose text is the pretty-printed JSON array
    (two-space indentation) of the entries' names, in the order of the
    body's [result]; nothing else of an entry reaches the text. *)
Theorem list_success_names (env : string -> option string) (network : Network)
        (prefix limit : JSValue) (r : Response) (data success : JSValue)
        (entries : list JSValue) (names : list string) :
  answered network (handleList env network prefix limit) r ->
  (200 <= status r <= 299)%Z ->
  json r = Normal data ->
  Get data "success" = Normal success ->
  ToBoolean success = true ->
  Get data "result" = Normal (JArray entries) ->
  entries_named entries names ->
  completion (handleList env network prefix limit)
  = Normal (envelope (pretty_printed_names names) false).
Proof.
  intros Hanswer Hstatus Hjson Hsuccess Htruthy Hresult Hnames.
  apply ok_negb_true in Hstatus.
  unfold handleList in *. after_answer Hanswer.
  rewrite Hstatus, Hjson, bind_lift, Hsuccess, bind_lift, Htruthy. cbn [negb].
  rewrite Hresult, bind_lift. cbn [call_map].
  rewrite (map_entry_names _ _ Hnames). cbn [bindC]. rewrite bind_lift.
  rewrite stringify_names. reflexivity.
Qed.

Lemma list_success_names_witness :
  completion (handleList sample_env (always listing) JUndefined JUndefined)
  = Normal (envelope ("[" ++ JSON.newline ++ "  " ++ JSON.dquote ++ "a" ++ JSON.dquote ++ ","
                          ++ JSON.newline ++ "  " ++ JSON.dquote ++ "b" ++ JSON.dquote
                          ++ JSON.newline ++ "]") false).
Proof.
  refine (list_success_names sample_env (always listing) JUndefined JUndefined
            listing _ (JBool true) _ ["a"; "b"] _ _ eq_refl eq_refl eq_refl eq_refl _).
  - eexists; split; reflexivity.
  - vm_compute; split; discriminate.
  - repeat constructor.
Defined.

(** ** Exceptions at the dispatcher boundary *)

Lemma JSValue_induction (P : JSValue -> Prop) :
  P JUndefined -> P JNull -> (forall b, P (JBool b)) -> (forall n, P (JNumber n)) ->
  (forall s, P (JString s)) ->
  (forall items, Forall P items -> P (JArray items)) ->
  (forall props, Forall (fun kv => P (snd kv)) props -> P (JObject props)) ->
  forall v, P v.
Proof.
  intros Hu Hn Hb Hz Hs Ha Ho. fix IH 1.
  intros [| | b | n | s | items | props];
    [exact Hu | exact Hn | apply Hb | apply Hz | apply Hs | | ].
  - apply Ha. induction items as [|x rest IHrest]; constructor; [apply IH | exact IHrest].
  - apply Ho. induction props as [|[k x] rest IHrest]; constructor; [apply IH | exact IHrest].
Qed.

Lemma printable_error (name message : string) : printable (JSError name message).
Proof. exact I. Qed.

Lemma normal_printable {A} (a : A) : throws_printable (Normal a).
Proof. intros e H. discriminate H. Qed.

Lemma throw_error_printable {A} (name message : string) :
  throws_printable (@Throw A (JSError name message)).
Proof. intros e [= <-]. apply printable_error. Qed.

Lemma bindC_printable {A B} (c : Completion A) (k : A -> Completion B) :
  throws_printable c -> (forall a, throws_printable (k a)) -> throws_printable (bindC c k).
Proof.
  intros Hc Hk. destruct c as [a|e]; cbn; [apply Hk|].
  intros e' [= <-]. now apply Hc.
Qed.

Create HintDb printable.

#[local] Hint Resolve normal_printable throw_error_printable bindC_printable : printable.

Lemma ToString_array (items : list JSValue) :
  ToString (JArray items) = Array_join items ",".
Proof. reflexivity. Qed.

Lemma join_elements_printable (items : list JSValue) :
  Forall (fun x => throws_printable (ToString x)) items ->
  throws_printable (join_elements items).
Proof.
  induction 1 as [|x rest Hx _ IH]; cbn [join_elements]; auto with printable.
  apply bindC_printable; [destruct x; cbn; auto with printable|].
  intros s. apply bindC_printable; auto with printable.
Qed.

Lemma ToString_printable (v : JSValue) : throws_printable (ToString v).
Proof.
  induction v as [| | b | n | s | items IH | props _] using JSValue_induction;
    cbn [ToString]; auto with printable.
  - destruct b; auto with printable.
  - change (throws_printable (ToString (JArray items))). rewrite ToString_array.
    apply bindC_printable; auto using join_elements_printable with printable.
  - destruct (has_own props "toString"); unfold TypeError; auto with printable.
Qed.

Lemma Array_join_printable (items : list JSValue) (sep : string) :
  throws_printable (Array_join items sep).
Proof.
  apply bindC_printable; auto with printable.
  apply join_elements_printable, Forall_forall. intros x _. apply ToString_printable.
Qed.

Lemma Get_printable (v : JSValue) (P : string) : throws_printable (Get v P).
Proof. destruct v; cbn; unfold TypeError; auto with printable. Qed.

Lemma call_toString_printable (ref : string) (v : JSValue) :
  throws_printable (call_toString ref v).
Proof.
  destruct v; cbn [call_toString]; unfold TypeError;
    auto using ToString_printable with printable.
  destruct (has_own props "toString"); auto with printable.
Qed.

Lemma call_join_printable (ref : string) (v : JSValue) (sep : string) :
  throws_printable (call_join ref v sep).
Proof.
  destruct v; cbn [call_join]; unfold TypeError;
    auto using Array_join_printable with printable.
Qed.

Lemma Array_map_printable (f : JSValue -> Completion JSValue) (items : list JSValue) :
  (forall x, throws_printable (f x)) -> throws_printable (Array_map f items).
Proof.
  intros Hf. induction items as [|x rest IH]; cbn [Array_map]; auto with printable.
Qed.

Lemma call_map_printable (ref : string) (v : JSValue) (f : JSValue -> Completion JSValue) :
  (forall x, throws_printable (f x)) -> throws_printable (call_map ref v f).
Proof.
  intros Hf. destruct v; cbn [call_map]; unfold TypeError; auto with printable.
  apply bindC_printable; auto using Array_map_printable with printable.
Qed.

Lemma destructure_printable (source : JSValue) (P : string) :
  throws_printable (destructure source P).
Proof.
  destruct source; cbn [destructure]; unfold TypeError;
    auto using Get_printable with printable.
Qed.

Lemma list_params_printable (prefix limit : JSValue) :
  throws_printable (list_params prefix limit).
Proof.
  unfold list_params. apply bindC_printable.
  - destruct (ToBoolean prefix); auto using ToString_printable with printable.
  - intros params.
    destruct (ToBoolean limit); auto using call_toString_printable with printable.
Qed.

Lemma ret_printable {A} (a : A) : throws_printable (completion (ret a)).
Proof. apply normal_printable. Qed.

Lemma bind_lift_printable {A B} (c : Completion A) (k : A -> Eff B) :
  throws_printable c -> (forall a, throws_printable (completion (k a))) ->
  throws_printable (completion (bind (lift c) k)).
Proof.
  intros Hc Hk. rewrite bind_lift. destruct c as [a|e]; [apply Hk|].
  intros e' [= <-]. now apply Hc.
Qed.

Lemma bind_fetch_printable {B} (network : Network) (u : string) (i : RequestInit)
      (k : Response -> Eff B) :
  rejects_printable network ->
  (forall r, throws_printable (text r) -> throws_printable (json r) ->
             throws_printable (completion (k r))) ->
  throws_printable (completion (bind (fetch network u i) k)).
Proof.
  intros Hnet Hk. rewrite bind_fetch. cbn zeta.
  destruct (Hnet (Request_of {| call_url := u; call_init := i |})) as [Hreject Hbody].
  destruct (network _) as [r|e].
  - destruct (Hbody r eq_refl). cbn [completion snd]. now apply Hk.
  - intros e' [= <-]. exact (Hreject e eq_refl).
Qed.

#[local] Hint Resolve ret_printable ToString_printable Get_printable destructure_printable
  call_join_printable call_map_printable list_params_printable : printable.

Ltac printable_step :=
  first [ apply bind_lift_printable; [auto with printable | intros ?]
        | apply bind_fetch_printable; [assumption | intros ? ? ?]
        | apply ret_printable
        | match goal with |- context [if ?b then _ else _] => destruct b end ].

(** Whatever an adapter throws is printable, provided what the network
    rejects with is. *)
Lemma handlers_printable (env : string -> option string) (network : Network) :
  rejects_printable network ->
  (forall key, throws_printable (completion (handleGet env network key)))
  /\ (forall key value expirationTtl,
         throws_printable (completion (handlePut env network key value expirationTtl)))
  /\ (forall key, throws_printable (completion (handleDelete env network key)))
  /\ (forall prefix limit, throws_printable (completion (handleList env network prefix limit))).
Proof.
  intros Hnet. repeat split; intros.
  - unfold handleGet. repeat printable_step.
  - unfold handlePut. repeat printable_step.
  - unfold handleDelete. repeat printable_step.
  - unfold handleList. repeat printable_step.
Qed.

Lemma dispatch_printable (env : string -> option string) (network : Network)
      (request : CallToolRequest.params) :
  rejects_printable network ->
  throws_printable (completion (dispatch env network request)).
Proof.
  intros Hnet.
  destruct (handlers_printable env network Hnet) as (Hget & Hput & Hdelete & Hlist).
  unfold dispatch. cbn zeta.
  repeat first [ apply Hget | apply Hput | apply Hdelete | apply Hlist
               | apply ret_printable
               | apply bind_lift_printable; [auto with printable | intros ?]
               | match goal with |- context [if ?b then _ else _] => destruct b end ].
Qed.

(** C2. Whatever is thrown while a tool call is dispatched (by the
    destructuring of the arguments, by an adapter, by the network) is caught:
    the handler returns an envelope and never throws.  When the dispatch
    threw an [Error], the envelope has [isError] true and the text
    [Error: ] followed by the error's message; when it threw a value that
    is not an [Error], the text is [Error: ] followed by the string form
    of that value.  The network is taken to reject with [Error]s or with
    values that have a string form. *)
Theorem dispatch_exception_enveloped (env : string -> option string) (network : Network)
        (request : CallToolRequest.params) :
  rejects_printable network ->
  exists result,
    completion (CallToolRequestHandler env network request) = Normal result
    /\ (forall r, completion (dispatch env network request) = Normal r -> result = r)
    /\ (forall name message,
        completion (dispatch env network request) = Throw (JSError name message) ->
        result = envelope ("Error: " ++ message) true)
    /\ (forall v,
        completion (dispatch env network request) = Throw (ThrownValue v) ->
        exists s, ToString v = Normal s /\ result = envelope ("Error: " ++ s) true).
Proof.
  intros Hnet. pose proof (dispatch_printable env network request Hnet) as Hthrown.
  unfold CallToolRequestHandler, try_catch.
  destruct (dispatch env network request) as [made [r|[name message|v]]] eqn:Hdispatch;
    cbn in Hthrown.
  - exists r. split; [reflexivity|]. repeat split.
    + intros r' [= <-]. reflexivity.
    + intros name message H. discriminate H.
    + intros v H. discriminate H.
  - rewrite bind_lift. cbn [error_text].
    exists (envelope ("Error: " ++ message) true). split; [reflexivity|]. repeat split.
    + intros r H. discriminate H.
    + intros name' message' [= _ <-]. reflexivity.
    + intros v H. discriminate H.
  - destruct (Hthrown (ThrownValue v) eq_refl) as [s Hs].
    rewrite bind_lift. cbn [error_text]. rewrite Hs.
    exists (envelope ("Error: " ++ s) true). split; [reflexivity|]. repeat split.
    + intros r H. discriminate H.
    + intros name message H. discriminate H.
    + intros v' [= <-]. exists s. split; [exact Hs | reflexivity].
Qed.

Lemma unreachable_rejects_printable : rejects_printable unreachable.
Proof.
  intros request. split.
  - apply throw_error_printable.
  - intros r H. discriminate H.
Qed.

Lemma hanging_up_rejects_printable : rejects_printable hanging_up.
Proof.
  intros request. split.
  - intros e [= <-]. eexists. reflexivity.
  - intros r H. discriminate H.
Qed.

Lemma dispatch_exception_enveloped_witness :
  completion (CallToolRequestHandler sample_env unreachable (call "kv_list" JUndefined))
  = Normal (envelope
              "Error: Cannot destructure property 'prefix' of 'request.params.arguments' as it is undefined."
              true)
  /\ completion (CallToolRequestHandler sample_env unreachable
                   (call "kv_get" (JObject [("key", JString "k")])))
     = Normal (envelope "Error: request to api.cloudflare.com failed" true)
  /\ completion (CallToolRequestHandler sample_env hanging_up
                   (call "kv_delete" (JObject [("key", JString "k")])))
     = Normal (envelope "Error: ECONNRESET,socket hang up" true).
Proof.
  split; [|split].
  - destruct (dispatch_exception_enveloped sample_env unreachable (call "kv_list" JUndefined)
                unreachable_rejects_printable) as (result & Hreturn & _ & Herror & _).
    rewrite Hreturn. now rewrite (Herror _ _ eq_refl).
  - destruct (dispatch_exception_enveloped sample_env unreachable
                (call "kv_get" (JObject [("key", JString "k")]))
                unreachable_rejects_printable) as (result & Hreturn & _ & Herror & _).
    rewrite Hreturn. now rewrite (Herror _ _ eq_refl).
  - destruct (dispatch_exception_enveloped sample_env hanging_up
                (call "kv_delete" (JObject [("key", JString "k")]))
                hanging_up_rejects_printable) as (result & Hreturn & _ & _ & Hvalue).
    rewrite Hreturn.
    destruct (Hvalue _ eq_refl) as (s & Hs & ->).
    injection Hs as <-. reflexivity.
Defined.

(** ** The requests of the adapters *)

Lemma handleGet_calls (env : string -> option string) (network : Network) (key : JSValue) :
  calls (handleGet env network key)
  = match ToString key with
    | Normal k =>
        [{| call_url := values_url env k;
            call_init := {| method := None; headers := [authorization env];
                            body := None; query := None |} |}]
    | Throw _ => []
    end.
Proof.
  unfold handleGet. rewrite bind_lift. destruct (ToString key) as [k|e]; [|reflexivity].
  rewrite bind_fetch. cbn zeta. destruct (network _) as [r|e]; [|reflexivity].
  cbn [calls fst]. f_equal.
  destruct (negb (ok r)); [reflexivity|]. rewrite bind_lift. now destruct (text r).
Qed.

Lemma handlePut_calls (env : string -> option string) (network : Network)
      (key value expirationTtl : JSValue) :
  calls (handlePut env network key value expirationTtl)
  = match ToString key with
    | Normal k =>
        [{| call_url := values_url env k;
            call_init :=
              {| method := Some "PUT";
                 headers := [authorization env; ("Content-Type", "text/plain")];
                 body := Some value;
                 query := if ToBoolean expirationTtl
                          then Some (JObject [("expiration_ttl", expirationTtl)])
                          else None |} |}]
    | Throw _ => []
    end.
Proof.
  unfold handlePut. rewrite bind_lift. destruct (ToString key) as [k|e]; [|reflexivity].
  rewrite bind_fetch. cbn zeta. destruct (network _) as [r|e]; [|reflexivity].
  cbn [calls fst]. f_equal.
  destruct (negb (ok r)); [reflexivity|]. now rewrite bind_lift.
Qed.

Lemma handleDelete_calls (env : string -> option string) (network : Network) (key : JSValue) :
  calls (handleDelete env network key)
  = match ToString key with
    | Normal k =>
        [{| call_url := values_url env k;
            call_init := {| method := Some "DELETE"; headers := [authorization env];
                            body := None; query := None |} |}]
    | Throw _ => []
    end.
Proof.
  unfold handleDelete. rewrite bind_lift. destruct (ToString key) as [k|e]; [|reflexivity].
  rewrite bind_fetch. cbn zeta. destruct (network _) as [r|e]; [|reflexivity].
  cbn [calls fst]. f_equal.
  destruct (negb (ok r)); [reflexivity|]. now rewrite bind_lift.
Qed.

Lemma handleList_calls_any (env : string -> option string) (network : Network)
      (prefix limit : JSValue) :
  calls (handleList env network prefix limit)
  = match list_params prefix limit with
    | Normal params =>
        [{| call_url := keys_url env params;
            call_init := {| method := None; headers := [authorization env];
                            body := None; query := None |} |}]
    | Throw _ => []
    end.
Proof.
  destruct (list_params prefix limit) as [params|e] eqn:H.
  - now apply handleList_calls.
  - unfold handleList. now rewrite H, bind_lift.
Qed.

(** X8. For a key that reads as the string [k], [handleGet], [handlePut]
    and [handleDelete] each call [fetch] exactly once, all three with the
    same URL string: the namespace URL followed by [/values/] and [k] as it
    is, not encoded.  The calls differ in the options: no method for the
    read, PUT with the value as body and the content type [text/plain] for
    the write, DELETE for the removal; each has the authorization header. *)
Theorem value_fetch_calls (env : string -> option string) (network : Network)
        (key : JSValue) (k : string) :
  ToString key = Normal k ->
  calls (handleGet env network key)
  = [{| call_url := namespace_url env ++ "/values/" ++ k;
        call_init := {| method := None; headers := [authorization env];
                        body := None; query := None |} |}]
  /\ (forall value expirationTtl,
         exists query,
           calls (handlePut env network key value expirationTtl)
           = [{| call_url := namespace_url env ++ "/values/" ++ k;
                 call_init :=
                   {| method := Some "PUT";
                      headers := [authorization env; ("Content-Type", "text/plain")];
                      body := Some value;
                      query := query |} |}])
  /\ calls (handleDelete env network key)
     = [{| call_url := namespace_url env ++ "/values/" ++ k;
           call_init := {| method := Some "DELETE"; headers := [authorization env];
                           body := None; query := None |} |}].
Proof.
  intros Hkey.
  split; [|split; [intros value expirationTtl|]].
  - now rewrite handleGet_calls, Hkey.
  - rewrite handlePut_calls, Hkey. eexists. reflexivity.
  - now rewrite handleDelete_calls, Hkey.
Qed.

Lemma value_fetch_calls_witness :
  map call_url (calls (handleGet sample_env unreachable (JString "a b#c")))
  = ["https://api.cloudflare.com/client/v4/accounts/acct/storage/kv/namespaces/ns/values/a b#c"]
  /\ map call_url (calls (handleDelete sample_env unreachable (JString "a b#c")))
     = ["https://api.cloudflare.com/client/v4/accounts/acct/storage/kv/namespaces/ns/values/a b#c"].
Proof.
  split.
  - now rewrite (proj1 (value_fetch_calls sample_env unreachable (JString "a b#c") "a b#c" eq_refl)).
  - now rewrite (proj2 (proj2 (value_fetch_calls sample_env unreachable (JString "a b#c") "a b#c"
                                 eq_refl))).
Defined.

(** ** The calls to [fetch] of one tool call *)

(** The ways a dispatch can go: it ends before any adapter runs (the
    destructuring threw, or the name is unknown), or it is the run of one
    adapter. *)
Lemma dispatch_runs (env : string -> option string) (network : Network)
      (request : CallToolRequest.params) :
  (exists e, dispatch env network request = ([], Throw e))
  \/ dispatch env network request
     = ([], Normal (envelope ("Unknown tool: " ++ CallToolRequest.name request) true))
  \/ (exists key, dispatch env network request = handleGet env network key)
  \/ (exists key value expirationTtl,
         dispatch env network request = handlePut env network key value expirationTtl)
  \/ (exists key, dispatch env network request = handleDelete env network key)
  \/ (exists prefix limit, dispatch env network request = handleList env network prefix limit).
Proof.
  unfold dispatch. cbn zeta.
  repeat match goal with
         | |- context [if ?b then _ else _] => destruct b
         | |- context [bind (lift ?c) _] => rewrite bind_lift; destruct c
         end;
    eauto 10.
Qed.

(** X2. A tool call calls [fetch] at most once, whatever the tool, the
    arguments and what the call resolves to or rejects with: the program
    never retries a call and never makes a second one.  (Requests that
    [fetch] itself sends when it follows a redirect are not calls of the
    program.) *)
Theorem at_most_one_fetch (env : string -> option string) (network : Network)
        (request : CallToolRequest.params) :
  length (calls (CallToolRequestHandler env network request)) <= 1.
Proof.
  rewrite handler_calls.
  destruct (dispatch_runs env network request)
    as [[e ->]|[->|[[key ->]|[(key & value & ttl & ->)|[[key ->]|(prefix & limit & ->)]]]]].
  - cbn; lia.
  - cbn; lia.
  - rewrite handleGet_calls. destruct (ToString key); cbn; lia.
  - rewrite handlePut_calls. destruct (ToString key); cbn; lia.
  - rewrite handleDelete_calls. destruct (ToString key); cbn; lia.
  - rewrite handleList_calls_any. destruct (list_params prefix limit); cbn; lia.
Qed.

Lemma prefix_append (s t : string) : String.prefix s (s ++ t) = true.
Proof.
  induction s as [|c s IH]; cbn; [now destruct t|].
  destruct (ascii_dec c c) as [_|H]; [exact IH|now destruct H].
Qed.

(** X3. Every call to [fetch] that a tool call makes passes the header
    [Authorization: Bearer] with the configured token among its headers,
    and a URL string that starts with the URL of the configured account and
    namespace.  (The rest of the string is not encoded, so the start of the
    string does not settle where [fetch] sends the request.) *)
Theorem fetch_calls_authorized (env : string -> option string) (network : Network)
        (request : CallToolRequest.params) :
  Forall (authorized env) (calls (CallToolRequestHandler env network request)).
Proof.
  rewrite handler_calls.
  assert (Hvalue : forall k, String.prefix (namespace_url env) (values_url env k) = true)
    by (intros k; apply prefix_append).
  assert (Hkeys : forall params, String.prefix (namespace_url env) (keys_url env params) = true)
    by (intros params; apply prefix_append).
  destruct (dispatch_runs env network request)
    as [[e ->]|[->|[[key ->]|[(key & value & ttl & ->)|[[key ->]|(prefix & limit & ->)]]]]].
  - constructor.
  - constructor.
  - rewrite handleGet_calls. destruct (ToString key); [|constructor].
    constructor; [|constructor]. split; [now left | apply Hvalue].
  - rewrite handlePut_calls. destruct (ToString key); [|constructor].
    constructor; [|constructor]. split; [now left | apply Hvalue].
  - rewrite handleDelete_calls. destruct (ToString key); [|constructor].
    constructor; [|constructor]. split; [now left | apply Hvalue].
  - rewrite handleList_calls_any. destruct (list_params prefix limit); [|constructor].
    constructor; [|constructor]. split; [now left | apply Hkeys].
Qed.

(** ** What an envelope tells *)

Ltac returned H :=
  unfold ret in H; cbn [completion snd] in H; injection H as <-.

Ltac step_lift H :=
  rewrite bind_lift in H;
  match type of H with
  | context [match ?c with Normal _ => _ | Throw _ => _ end] =>
      destruct c eqn:?; [|discriminate H]
  end.

Ltac step_fetch H r Hnet Hok :=
  rewrite bind_fetch in H; cbn zeta in H;
  match type of H with
  | context [match ?answer with Normal _ => _ | Throw _ => _ end] =>
      destruct answer as [r|] eqn:Hnet; [|discriminate H]
  end;
  cbn [completion snd] in H;
  destruct (ok r) eqn:Hok; cbn [negb] in H.

Ltac failure_envelope := do 2 eexists; split; [reflexivity | discriminate].

Ltac success_envelope r Hnet Hok :=
  do 2 eexists; split; [reflexivity|]; intros _; exists r;
  split; [eexists; split; [reflexivity | exact Hnet] | exact Hok].

(** Whatever an adapter returns is an envelope with one text item, and it
    is flagged as a success only after a 2xx answer to the adapter's call. *)
Lemma adapters_return (env : string -> option string) (network : Network) (result : Envelope) :
  let told (m : Eff Envelope) :=
    completion m = Normal result ->
    exists text flag,
      result = envelope text flag
      /\ (flag = false -> exists r, answered network m r /\ ok r = true) in
  (forall key, told (handleGet env network key))
  /\ (forall key value expirationTtl, told (handlePut env network key value expirationTtl))
  /\ (forall key, told (handleDelete env network key))
  /\ (forall prefix limit, told (handleList env network prefix limit)).
Proof.
  cbn zeta. repeat split; intros *; intros H; unfold answered.
  - rewrite handleGet_calls. unfold handleGet in H.
    step_lift H. step_fetch H r Hnet Hok.
    + step_lift H. returned H. success_envelope r Hnet Hok.
    + returned H. failure_envelope.
  - rewrite handlePut_calls. unfold handlePut in H.
    step_lift H. step_fetch H r Hnet Hok.
    + rewrite bind_lift in H. returned H. success_envelope r Hnet Hok.
    + returned H. failure_envelope.
  - rewrite handleDelete_calls. unfold handleDelete in H.
    step_lift H. step_fetch H r Hnet Hok.
    + rewrite bind_lift in H. returned H. success_envelope r Hnet Hok.
    + returned H. failure_envelope.
  - rewrite handleList_calls_any. unfold handleList in H.
    step_lift H. step_fetch H r Hnet Hok.
    + step_lift H. step_lift H.
      destruct (negb (ToBoolean _)).
      * step_lift H. step_lift H. returned H. failure_envelope.
      * step_lift H. step_lift H. returned H. success_envelope r Hnet Hok.
    + returned H. failure_envelope.
Qed.

(** X5. A tool call that returns an envelope with [isError] false called
    [fetch] exactly once, and the response that call resolved to has a
    status in the range 200-299: no success is reported without one. *)
Theorem success_after_2xx (env : string -> option string) (network : Network)
        (request : CallToolRequest.params) (result : Envelope) :
  completion (CallToolRequestHandler env network request) = Normal result ->
  isError (toolResult result) = false ->
  exists r,
    answered network (CallToolRequestHandler env network request) r
    /\ (200 <= status r <= 299)%Z.
Proof.
  intros Hresult Hflag. unfold answered. rewrite handler_calls.
  assert (Hdispatch : completion (dispatch env network request) = Normal result).
  { revert Hresult. unfold CallToolRequestHandler, try_catch.
    destruct (dispatch env network request) as [made [r|e]]; [trivial|].
    rewrite bind_lift. destruct (error_text e) as [message|e']; cbn; [|discriminate].
    intros [= <-]. discriminate Hflag. }
  destruct (adapters_return env network result) as (Hget & Hput & Hdelete & Hlist).
  assert (Hadapter : forall m : Eff Envelope,
             (completion m = Normal result ->
              exists text flag,
                result = envelope text flag
                /\ (flag = false -> exists r, answered network m r /\ ok r = true)) ->
             completion m = Normal result ->
             exists r, answered network m r /\ (200 <= status r <= 299)%Z).
  { intros m Hm Hcompletion.
    destruct (Hm Hcompletion) as (text & flag & -> & Hr).
    destruct (Hr Hflag) as (r & Hanswered & Hok).
    exists r. split; [exact Hanswered | now apply ok_true_iff]. }
  destruct (dispatch_runs env network request)
    as [[e He]|[He|[[key He]|[(key & value & ttl & He)|[[key He]|(prefix & limit & He)]]]]];
    rewrite He in Hdispatch |- *.
  - discriminate Hdispatch.
  - injection Hdispatch as <-. discriminate Hflag.
  - exact (Hadapter _ (Hget key) Hdispatch).
  - exact (Hadapter _ (Hput key value ttl) Hdispatch).
  - exact (Hadapter _ (Hdelete key) Hdispatch).
  - exact (Hadapter _ (Hlist prefix limit) Hdispatch).
Qed.

Lemma success_after_2xx_witness :
  exists r,
    answered (always listing)
      (CallToolRequestHandler sample_env (always listing) (call "kv_list" (JObject []))) r
    /\ (200 <= status r <= 299)%Z.
Proof.
  eapply (success_after_2xx sample_env (always listing) (call "kv_list" (JObject []))).
  - reflexivity.
  - reflexivity.
Defined.

(** X9. Every envelope a tool call returns has exactly one content
    item, of type [text]. *)
Theorem envelope_shape (env : string -> option string) (network : Network)
        (request : CallToolRequest.params) (result : Envelope) :
  completion (CallToolRequestHandler env network request) = Normal result ->
  exists text,
    content (toolResult result) = [{| Content.type := "text"; Content.text := text |}].
Proof.
  intros Hresult.
  assert (Hshape : forall text flag,
             result = envelope text flag ->
             exists text, content (toolResult result)
                          = [{| Content.type := "text"; Content.text := text |}])
    by (intros text flag ->; eexists; reflexivity).
  revert Hresult. unfold CallToolRequestHandler, try_catch.
  destruct (dispatch env network request) as [made [r|e]] eqn:Hdispatch.
  - cbn [completion snd]. intros [= ->].
    assert (Hcompletion : completion (dispatch env network request) = Normal result)
      by now rewrite Hdispatch.
    destruct (adapters_return env network result) as (Hget & Hput & Hdelete & Hlist).
    destruct (dispatch_runs env network request)
      as [[e He]|[He|[[key He]|[(key & value & ttl & He)|[[key He]|(prefix & limit & He)]]]]];
      rewrite He in Hcompletion.
    + discriminate Hcompletion.
    + injection Hcompletion as <-. eexists; reflexivity.
    + destruct (Hget key Hcompletion) as (text & flag & H & _); eauto.
    + destruct (Hput key value ttl Hcompletion) as (text & flag & H & _); eauto.
    + destruct (Hdelete key Hcompletion) as (text & flag & H & _); eauto.
    + destruct (Hlist prefix limit Hcompletion) as (text & flag & H & _); eauto.
  - rewrite bind_lift. destruct (error_text e) as [message|e']; cbn; [|discriminate].
    intros [= <-]. eexists; reflexivity.
Qed.

Lemma envelope_shape_witness :
  exists text,
    content (toolResult (envelope "Unknown tool: kv_purge" true))
    = [{| Content.type := "text"; Content.text := text |}].
Proof.
  apply (envelope_shape sample_env unreachable (call "kv_purge" JUndefined)).
  reflexivity.
Defined.

(** ** Reading a value *)

(** X1. When the HTTP call of [handleGet] is answered with a 2xx status,
    the adapter returns the body text exactly as read (no trimming, no
    parsing, an empty body included) with [isError] false; when reading the
    body rejects, the adapter throws what the read rejected with. *)
Theorem get_success_text (env : string -> option string) (network : Network)
        (key : JSValue) (r : Response) :
  answered network (handleGet env network key) r ->
  (200 <= status r <= 299)%Z ->
  completion (handleGet env network key)
  = match text r with
    | Normal value => Normal (envelope value false)
    | Throw e => Throw e
    end.
Proof.
  intros H Hstatus. apply ok_negb_true in Hstatus.
  unfold handleGet in *. after_answer H.
  rewrite Hstatus, bind_lift. now destruct (text r).
Qed.

Lemma get_success_text_witness :
  completion (handleGet sample_env (always no_content) (JString "k"))
  = Normal (envelope "stored-value" false).
Proof.
  refine (get_success_text sample_env (always no_content) (JString "k") no_content _ _).
  - eexists; split; reflexivity.
  - vm_compute; split; discriminate.
Defined.

(** ** Missing arguments and settings *)

(** X4. When a registered tool is called without an arguments object, the
    destructuring throws before any adapter runs: no HTTP request is made
    and the result is an error envelope whose text starts with [Error: ]. *)
Theorem missing_arguments_enveloped (env : string -> option string) (network : Network)
        (name : string) :
  In name (map Tool.name KV_TOOLS) ->
  exists message,
    CallToolRequestHandler env network (call name JUndefined)
    = ([], Normal (envelope ("Error: " ++ message) true)).
Proof.
  cbn. intros [<-|[<-|[<-|[<-|[]]]]]; eexists; reflexivity.
Qed.

Lemma missing_arguments_enveloped_witness :
  exists message,
    CallToolRequestHandler sample_env (always no_content) (call "kv_put" JUndefined)
    = ([], Normal (envelope ("Error: " ++ message) true)).
Proof.
  apply (missing_arguments_enveloped sample_env (always no_content) "kv_put").
  cbn. right. left. reflexivity.
Defined.

(** X6. When the arguments object of [kv_get], [kv_put] or [kv_delete] has
    no [key] member, the call is not refused: the absent key reads as the
    text [undefined] and the one request goes to the value URL of a key of
    that name. *)
Theorem missing_key_undefined (env : string -> option string) (network : Network)
        (props : list (string * JSValue)) :
  get_own props "key" = None ->
  map call_url (calls (CallToolRequestHandler env network (call "kv_get" (JObject props))))
  = [namespace_url env ++ "/values/undefined"]
  /\ map call_url (calls (CallToolRequestHandler env network (call "kv_put" (JObject props))))
     = [namespace_url env ++ "/values/undefined"]
  /\ map call_url (calls (CallToolRequestHandler env network (call "kv_delete" (JObject props))))
     = [namespace_url env ++ "/values/undefined"].
Proof.
  intros Hkey. rewrite !handler_calls. unfold dispatch, call.
  cbn [CallToolRequest.name CallToolRequest.arguments String.eqb Ascii.eqb Bool.eqb
         destructure Get].
  rewrite Hkey, !bind_lift, handleGet_calls, handlePut_calls, handleDelete_calls.
  repeat split; reflexivity.
Qed.

Lemma missing_key_undefined_witness :
  map call_url
    (calls (CallToolRequestHandler sample_env (always not_found)
              (call "kv_delete" (JObject [("value", JString "v")]))))
  = ["https://api.cloudflare.com/client/v4/accounts/acct/storage/kv/namespaces/ns/values/undefined"].
Proof.
  exact (proj2 (proj2 (missing_key_undefined sample_env (always not_found)
                         [("value", JString "v")] eq_refl))).
Defined.

(** X13. Nothing checks the configuration: with the three environment
    variables unset a [kv_get] still sends its request, to the account and
    the namespace [undefined] and with the token [undefined]. *)
Theorem unset_environment_requests (env : string -> option string) (network : Network)
        (k : string) :
  env "CLOUDFLARE_ACCOUNT_ID" = None ->
  env "CLOUDFLARE_API_TOKEN" = None ->
  env "CLOUDFLARE_KV_NAMESPACE_ID" = None ->
  calls (CallToolRequestHandler env network (call "kv_get" (JObject [("key", JString k)])))
  = [{| call_url :=
          "https://api.cloudflare.com/client/v4/accounts/undefined/storage/kv/namespaces/undefined/values/"
            ++ k;
        call_init := {| method := None; headers := [("Authorization", "Bearer undefined")];
                        body := None; query := None |} |}].
Proof.
  intros Haccount Htoken Hnamespace. rewrite handler_calls. unfold dispatch, call.
  cbn [CallToolRequest.name CallToolRequest.arguments String.eqb Ascii.eqb Bool.eqb
         destructure Get get_own].
  rewrite bind_lift, handleGet_calls. cbn [ToString].
  unfold values_url, namespace_url, authorization, config, getConfig.
  cbn [accountId apiToken namespaceId]. rewrite Haccount, Htoken, Hnamespace.
  reflexivity.
Qed.

Lemma unset_environment_requests_witness :
  map call_url
    (calls (CallToolRequestHandler no_env unreachable
              (call "kv_get" (JObject [("key", JString "k")]))))
  = ["https://api.cloudflare.com/client/v4/accounts/undefined/storage/kv/namespaces/undefined/values/k"].
Proof.
  now rewrite (unset_environment_requests no_env unreachable "k" eq_refl eq_refl eq_refl).
Defined.

(** ** Network failures *)






(** ** Unusual list bodies *)

Lemma map_read_names (entries : list JSValue) (names : list (option string)) :
  Forall2 (fun entry name => Get entry "name" = Normal (read_name name)) entries names ->
  Array_map (fun item => Get item "name") entries = Normal (map read_name names).
Proof.
  induction 1 as [|entry name entries names Hname _ IH]; [reflexivity|].
  cbn [Array_map map]. rewrite Hname, IH. reflexivity.
Qed.

Lemma stringify_read_names (names : list (option string)) :
  JSON.stringify (JArray (map read_name names)) 2
  = Some (pretty_printed (map written_name names)).
Proof.
  unfold JSON.stringify. cbn [JSON.SerializeJSONProperty].
  match goal with
  | |- Some (JSON.wrap _ _ _ _ ?l) = _ =>
      assert (Hitems : l = map written_name names)
  end.
  { induction names as [|[n|] rest IH]; [reflexivity| |]; cbn [map read_name]; now rewrite <- IH. }
  rewrite Hitems. now destruct (map written_name names).
Qed.

(** X10. In a successful listing every entry of [result] gives one item of
    the text, in order: the quoted name when the entry's [name] is a string,
    and [null] when the entry has no [name] (an entry is neither skipped nor
    refused for that). *)
Theorem listing_unnamed_entries (env : string -> option string) (network : Network)
        (prefix limit : JSValue) (r : Response) (data success : JSValue)
        (entries : list JSValue) (names : list (option string)) :
  answered network (handleList env network prefix limit) r ->
  (200 <= status r <= 299)%Z ->
  json r = Normal data ->
  Get data "success" = Normal success ->
  ToBoolean success = true ->
  Get data "result" = Normal (JArray entries) ->
  Forall2 (fun entry name => Get entry "name" = Normal (read_name name)) entries names ->
  completion (handleList env network prefix limit)
  = Normal (envelope (pretty_printed (map written_name names)) false).
Proof.
  intros Hanswer Hstatus Hjson Hsuccess Htruthy Hresult Hnames.
  apply ok_negb_true in Hstatus.
  unfold handleList in *. after_answer Hanswer.
  rewrite Hstatus, Hjson, bind_lift, Hsuccess, bind_lift, Htruthy. cbn [negb].
  rewrite Hresult, bind_lift. cbn [call_map].
  rewrite (map_read_names _ _ Hnames). cbn [bindC]. rewrite bind_lift.
  rewrite stringify_read_names. reflexivity.
Qed.

Lemma listing_unnamed_entries_witness :
  completion (handleList sample_env (always sparse_listing) JUndefined JUndefined)
  = Normal (envelope ("[" ++ JSON.newline ++ "  " ++ JSON.dquote ++ "a" ++ JSON.dquote ++ ","
                          ++ JSON.newline ++ "  null" ++ JSON.newline ++ "]") false).
Proof.
  refine (listing_unnamed_entries sample_env (always sparse_listing) JUndefined JUndefined
            sparse_listing _ (JBool true) _ [Some "a"; None] _ _
            eq_refl eq_refl eq_refl eq_refl _).
  - eexists; split; reflexivity.
  - vm_compute; split; discriminate.
  - repeat constructor.
Defined.

(** X11. [handleList] does not check the shape of a 2xx body: when the
    member it goes on to read ([result] after a truthy [success], [errors]
    after a falsy one) is not an array, the adapter throws a [TypeError]
    instead of returning an envelope. *)
Theorem listing_malformed_body (env : string -> option string) (network : Network)
        (prefix limit : JSValue) (r : Response) (data success member : JSValue) :
  answered network (handleList env network prefix limit) r ->
  (200 <= status r <= 299)%Z ->
  json r = Normal data ->
  Get data "success" = Normal success ->
  Get data (if ToBoolean success then "result" else "errors") = Normal member ->
  is_array member = false ->
  exists message,
    completion (handleList env network prefix limit) = Throw (TypeError message).
Proof.
  intros Hanswer Hstatus Hjson Hsuccess Hmember Harray.
  apply ok_negb_true in Hstatus.
  unfold handleList in *. after_answer Hanswer.
  rewrite Hstatus, Hjson, bind_lift, Hsuccess, bind_lift.
  destruct (ToBoolean success); cbn [negb]; rewrite Hmember, bind_lift;
    destruct member; try discriminate Harray; eexists; reflexivity.
Qed.

Lemma listing_malformed_body_witness :
  exists message,
    completion (handleList sample_env (always truncated_listing) JUndefined JUndefined)
    = Throw (TypeError message).
Proof.
  refine (listing_malformed_body sample_env (always truncated_listing) JUndefined JUndefined
            truncated_listing (JObject [("success", JBool true)]) (JBool true) JUndefined
            _ _ eq_refl eq_refl eq_refl eq_refl).
  - eexists; split; reflexivity.
  - vm_compute; split; discriminate.
Defined.

(** ** The characters of a list query *)

Lemma chars_append (s t : string) :
  list_ascii_of_string (s ++ t) = (list_ascii_of_string s ++ list_ascii_of_string t)%list.
Proof. induction s as [|c s IH]; cbn; [reflexivity | now rewrite IH]. Qed.

Lemma occurrences_append (c : ascii) (s t : string) :
  occurrences c (s ++ t) = occurrences c s + occurrences c t.
Proof. unfold occurrences. now rewrite chars_append, count_occ_app. Qed.

Lemma encode_byte_chars (c : ascii) :
  forallb encoded_char (list_ascii_of_string (URLSearchParams.encode_byte c)) = true.
Proof.
  destruct c as [[] [] [] [] [] [] [] []]; reflexivity.
Qed.

Lemma encode_chars (s : string) :
  forallb encoded_char (list_ascii_of_string (URLSearchParams.encode s)) = true.
Proof.
  induction s as [|c s IH]; [reflexivity|].
  cbn [URLSearchParams.encode]. rewrite chars_append, forallb_app, encode_byte_chars.
  exact IH.
Qed.

Lemma absent_char (P : ascii -> bool) (c : ascii) (l : list ascii) :
  forallb P l = true -> P c = false -> count_occ ascii_dec l c = 0.
Proof.
  intros Hall Hc. induction l as [|x l IH]; [reflexivity|].
  cbn in Hall |- *. apply andb_true_iff in Hall as [Hx Hl].
  destruct (ascii_dec x c) as [->|_]; [congruence | now apply IH].
Qed.

Lemma encode_occurrences (c : ascii) (s : string) :
  encoded_char c = false -> occurrences c (URLSearchParams.encode s) = 0.
Proof. intros Hc. exact (absent_char _ _ _ (encode_chars s) Hc). Qed.

Lemma encoded_is_query_char (l : list ascii) :
  forallb encoded_char l = true -> forallb query_char l = true.
Proof.
  rewrite !forallb_forall. intros H c Hin. specialize (H c Hin).
  unfold query_char. unfold encoded_char in H. now rewrite H.
Qed.

(** The query of one pair and of two. *)
Lemma pair_query (name value : string) :
  forallb query_char
    (list_ascii_of_string (URLSearchParams.encode name ++ "=" ++ URLSearchParams.encode value))
  = true
  /\ occurrences "&" (URLSearchParams.encode name ++ "=" ++ URLSearchParams.encode value) = 0
  /\ occurrences "=" (URLSearchParams.encode name ++ "=" ++ URLSearchParams.encode value) = 1.
Proof.
  repeat split.
  - rewrite !chars_append, !forallb_app.
    rewrite !(encoded_is_query_char _ (encode_chars _)). reflexivity.
  - rewrite !occurrences_append, !encode_occurrences by reflexivity. reflexivity.
  - rewrite !occurrences_append, !encode_occurrences by reflexivity. reflexivity.
Qed.

(** X12. Whatever [prefix] and [limit] are, the query string of the
    listing request consists of unreserved characters, [+], [%], [=] and
    [&] only, with at most one [&] and at most two [=]: a value cannot add a
    parameter of its own, end the query or start a fragment. *)
Theorem list_query_characters (env : string -> option string) (network : Network)
        (prefix limit : JSValue) (c : FetchCall) :
  In c (calls (handleList env network prefix limit)) ->
  exists query,
    call_url c = namespace_url env ++ "/keys?" ++ query
    /\ forallb query_char (list_ascii_of_string query) = true
    /\ occurrences "&" query <= 1
    /\ occurrences "=" query <= 2.
Proof.
  rewrite handleList_calls_any.
  destruct (list_params prefix limit) as [params|e] eqn:Hparams; [|intros []].
  intros [<-|[]]. exists (URLSearchParams.toString params).
  split; [reflexivity|].
  apply list_params_inv in Hparams.
  destruct Hparams as (front & back & -> & [->|[_ [p ->]]] & [->|[_ [l ->]]]).
  - repeat split; cbn; lia.
  - change (URLSearchParams.toString ([] ++ [("limit", l)])%list)
      with (URLSearchParams.encode "limit" ++ "=" ++ URLSearchParams.encode l).
    destruct (pair_query "limit" l) as (Hchars & Hamp & Heq).
    rewrite Hchars, Hamp, Heq. repeat split; lia.
  - change (URLSearchParams.toString ([("prefix", p)] ++ [])%list)
      with (URLSearchParams.encode "prefix" ++ "=" ++ URLSearchParams.encode p).
    destruct (pair_query "prefix" p) as (Hchars & Hamp & Heq).
    rewrite Hchars, Hamp, Heq. repeat split; lia.
  - change (URLSearchParams.toString ([("prefix", p)] ++ [("limit", l)])%list)
      with ((URLSearchParams.encode "prefix" ++ "=" ++ URLSearchParams.encode p)
              ++ "&" ++ (URLSearchParams.encode "limit" ++ "=" ++ URLSearchParams.encode l)).
    destruct (pair_query "prefix" p) as (Hchars & Hamp & Heq).
    destruct (pair_query "limit" l) as (Hchars' & Hamp' & Heq').
    rewrite !(chars_append (_ ++ _)), !forallb_app, !(occurrences_append _ (_ ++ _)).
    rewrite Hchars, Hamp, Heq.
    change (list_ascii_of_string ("&" ++ ?s)) with ("&"%char :: list_ascii_of_string s).
    cbn [forallb]. rewrite Hchars'.
    rewrite (occurrences_append "&" "&"), (occurrences_append "=" "&"), Hamp', Heq'.
    repeat split; cbn; lia.
Qed.

Lemma list_query_characters_witness :
  exists query,
    "https://api.cloudflare.com/client/v4/accounts/acct/storage/kv/namespaces/ns/keys?prefix=a%26b%3D1%23&limit=10"
    = namespace_url sample_env ++ "/keys?" ++ query
    /\ forallb query_char (list_ascii_of_string query) = true
    /\ occurrences "&" query <= 1
    /\ occurrences "=" query <= 2.
Proof.
  refine (list_query_characters sample_env unreachable (JString "a&b=1#") (JNumber 10)
            {| call_url := _; call_init := _ |} _).
  left. reflexivity.
Defined.

(** ** Arguments of another type *)

(** X14. The declared argument types are not enforced: a key of any type
    whose string form is [k] (the number 5 for the key 5, say) is treated by
    [handleGet], [handlePut] and [handleDelete] exactly as the string [k]:
    same request, same result. *)
Theorem key_read_as_string (env : string -> option string) (network : Network)
        (key : JSValue) (k : string) :
  ToString key = Normal k ->
  handleGet env network key = handleGet env network (JString k)
  /\ (forall value expirationTtl,
         handlePut env network key value expirationTtl
         = handlePut env network (JString k) value expirationTtl)
  /\ handleDelete env network key = handleDelete env network (JString k).
Proof.
  intros Hkey. unfold handleGet, handlePut, handleDelete.
  rewrite Hkey. cbn [ToString]. repeat split.
Qed.

Lemma key_read_as_string_witness :
  handleGet sample_env (always no_content) (JArray [JString "a"; JNumber 1])
  = handleGet sample_env (always no_content) (JString "a,1").
Proof.
  exact (proj1 (key_read_as_string sample_env (always no_content)
                  (JArray [JString "a"; JNumber 1]) "a,1" eq_refl)).
Defined.

(** ** The lines of a listing *)

Lemma escape_char_printing (c : ascii) :
  forallb printing_char (list_ascii_of_string (JSON.escape_char c)) = true.
Proof.
  destruct c as [[] [] [] [] [] [] [] []]; reflexivity.
Qed.

Lemma escape_printing (s : string) :
  forallb printing_char (list_ascii_of_string (JSON.escape s)) = true.
Proof.
  induction s as [|c s IH]; [reflexivity|].
  cbn [JSON.escape]. rewrite chars_append, forallb_app, escape_char_printing.
  exact IH.
Qed.

Lemma written_name_one_line (name : option string) :
  occurrences "010" (written_name name) = 0.
Proof.
  destruct name as [n|]; [|reflexivity].
  unfold written_name, JSON.QuoteJSONString.
  rewrite !occurrences_append.
  unfold occurrences at 2.
  rewrite (absent_char _ _ _ (escape_printing n)) by reflexivity.
  reflexivity.
Qed.

Lemma concat_one_line (sep : string) (items : list string) :
  Forall (fun item => occurrences "010" item = 0) items ->
  occurrences "010" (String.concat sep items)
  = Nat.pred (length items) * occurrences "010" sep.
Proof.
  induction 1 as [|item rest Hitem Hrest IH]; [reflexivity|].
  destruct rest as [|item' rest].
  - cbn [String.concat length Nat.pred]. rewrite Hitem. lia.
  - change (String.concat sep (item :: item' :: rest))
      with (item ++ sep ++ String.concat sep (item' :: rest)).
    rewrite !occurrences_append, IH, Hitem. cbn [length Nat.pred]. lia.
Qed.

(** X15. The text of a successful listing has one line per entry between
    the line of the opening and the line of the closing bracket, whatever
    the names contain: a line break inside a name is escaped, so the text
    has as many line breaks as entries plus one (none for an empty
    listing, whose text is the two brackets). *)
Theorem listing_one_line_per_entry (env : string -> option string) (network : Network)
        (prefix limit : JSValue) (r : Response) (data success : JSValue)
        (entries : list JSValue) (names : list (option string)) :
  answered network (handleList env network prefix limit) r ->
  (200 <= status r <= 299)%Z ->
  json r = Normal data ->
  Get data "success" = Normal success ->
  ToBoolean success = true ->
  Get data "result" = Normal (JArray entries) ->
  Forall2 (fun entry name => Get entry "name" = Normal (read_name name)) entries names ->
  exists text,
    completion (handleList env network prefix limit) = Normal (envelope text false)
    /\ occurrences "010" text
       = match entries with
         | [] => 0
         | _ => S (length entries)
         end.
Proof.
  intros Hanswer Hstatus Hjson Hsuccess Htruthy Hresult Hnames.
  exists (pretty_printed (map written_name names)). split.
  - apply ok_negb_true in Hstatus.
    unfold handleList in *. after_answer Hanswer.
    rewrite Hstatus, Hjson, bind_lift, Hsuccess, bind_lift, Htruthy. cbn [negb].
    rewrite Hresult, bind_lift. cbn [call_map].
    rewrite (map_read_names _ _ Hnames). cbn [bindC]. rewrite bind_lift.
    rewrite stringify_read_names. reflexivity.
  - rewrite (Forall2_length Hnames).
    destruct Hnames as [|entry name entries names _ _]; [reflexivity|].
    cbn [map pretty_printed].
    rewrite !occurrences_append, concat_one_line.
    + rewrite !occurrences_append. cbn [length map Nat.pred].
      rewrite length_map.
      change (occurrences "010" "[") with 0.
      change (occurrences "010" JSON.newline) with 1.
      change (occurrences "010" "  ") with 0.
      change (occurrences "010" ",") with 0.
      change (occurrences "010" "]") with 0.
      lia.
    + change (written_name name :: map written_name names)
        with (map written_name (name :: names)).
      apply Forall_forall. intros item Hin. apply in_map_iff in Hin as [n [<- _]].
      apply written_name_one_line.
Qed.

Lemma listing_one_line_per_entry_witness :
  exists text,
    completion (handleList sample_env (always listing) JUndefined JUndefined)
    = Normal (envelope text false)
    /\ occurrences "010" text = 3.
Proof.
  refine (listing_one_line_per_entry sample_env (always listing) JUndefined JUndefined
            listing _ (JBool true) _ [Some "a"; Some "b"] _ _
            eq_refl eq_refl eq_refl eq_refl _).
  - eexists; split; reflexivity.
  - vm_compute; split; discriminate.
  - repeat constructor.
Defined.
